(** * async-webserver: the connection pipeline of [server.py] and [main.py]

    A shallow embedding of the two asyncio servers of the repository:
    the route-table server (class [GhuServer] of [server.py]) and the
    fixed-response server of [main.py].  A coroutine is a computation in
    a small monad that threads the state of the outside world and the
    trace of socket and logging actions, and that can end by a value, by
    a raised exception or by a [return] statement. *)

From Stdlib Require Import ZArith List String Ascii Strings.Byte Lia DecimalString.
From stdpp Require Import gmap strings.
Import ListNotations.
Open Scope Z_scope.
Open Scope string_scope.

(** ** Python values *)

Module Py.

(** A [str] is represented by its UTF-8 encoding, one [ascii] per byte.
    Concatenation, equality, dictionary lookup and [split] on an ASCII
    separator act on the encoding exactly as on the code points, and
    [str.encode("utf-8")] is the identity.  (A [str] holding a lone
    surrogate has no encoding and is outside this representation.) *)

Definition CR : ascii := "013"%char.
Definition LF : ascii := "010"%char.
Definition CRLF : string := String CR (String LF "").
Definition NL : string := String LF "".

Definition bytes := list byte.

Definition encode (s : string) : bytes := list_byte_of_string s.

(** [format(n)] of an [int], as an f-string field renders it. *)
Definition str_of_int (n : Z) : string := NilZero.string_of_int (Z.to_int n).

(** *** [bytes.decode("utf-8", errors="replace")]

    Every maximal ill-formed subsequence becomes U+FFFD (EF BF BD), as
    CPython's decoder does: an invalid start byte is replaced alone, a
    start byte with a wrong continuation is replaced up to (not
    including) the offending byte, and a sequence cut by the end of the
    data is replaced as a whole. *)

Definition between (lo hi : N) (b : byte) : bool :=
  (N.leb lo (Byte.to_N b) && N.leb (Byte.to_N b) hi)%bool.

Definition is_continuation : byte -> bool := between 128 191.

(** The admissible second byte after the start byte [b0] of a three- or
    four-byte sequence (E0, ED, F0 and F4 narrow the range). *)
Definition second_ok (b0 b1 : byte) : bool :=
  let n0 := Byte.to_N b0 in
  if N.eqb n0 224 then between 160 191 b1
  else if N.eqb n0 237 then between 128 159 b1
  else if N.eqb n0 240 then between 144 191 b1
  else if N.eqb n0 244 then between 128 143 b1
  else is_continuation b1.

Definition REPLACEMENT : bytes := [xef; xbf; xbd].

Fixpoint decode_bytes (bs : bytes) : bytes :=
  match bs with
  | [] => []
  | b0 :: r0 =>
    if between 0 127 b0 then b0 :: decode_bytes r0
    else if between 194 223 b0 then
      match r0 with
      | [] => REPLACEMENT
      | b1 :: r1 =>
        if is_continuation b1 then b0 :: b1 :: decode_bytes r1
        else (REPLACEMENT ++ decode_bytes r0)%list
      end
    else if between 224 239 b0 then
      match r0 with
      | [] => REPLACEMENT
      | b1 :: r1 =>
        if second_ok b0 b1 then
          match r1 with
          | [] => REPLACEMENT
          | b2 :: r2 =>
            if is_continuation b2 then b0 :: b1 :: b2 :: decode_bytes r2
            else (REPLACEMENT ++ decode_bytes r1)%list
          end
        else (REPLACEMENT ++ decode_bytes r0)%list
      end
    else if between 240 244 b0 then
      match r0 with
      | [] => REPLACEMENT
      | b1 :: r1 =>
        if second_ok b0 b1 then
          match r1 with
          | [] => REPLACEMENT
          | b2 :: r2 =>
            if is_continuation b2 then
              match r2 with
              | [] => REPLACEMENT
              | b3 :: r3 =>
                if is_continuation b3
                then b0 :: b1 :: b2 :: b3 :: decode_bytes r3
                else (REPLACEMENT ++ decode_bytes r2)%list
              end
            else (REPLACEMENT ++ decode_bytes r1)%list
          end
        else (REPLACEMENT ++ decode_bytes r0)%list
      end
    else (REPLACEMENT ++ decode_bytes r0)%list
  end.

Definition decode (data : bytes) : string := string_of_list_byte (decode_bytes data).

(** *** [str.split(sep)] with an explicit, non-empty separator

    The string is cut at the non-overlapping occurrences of [sep], found
    from the left; the result always has at least one element.  [skip]
    counts the characters of a separator just matched that are still to
    be passed over. *)

(** [s.startswith(pre)], by recursion on [pre]. *)
Fixpoint startswith (s pre : string) {struct pre} : bool :=
  match pre with
  | "" => true
  | String a pre' =>
    match s with
    | "" => false
    | String b s' => (Ascii.eqb a b && startswith s' pre')%bool
    end
  end.

(** [s.endswith(suf)]. *)
Definition endswith (s suf : string) : bool :=
  (String.length suf <=? String.length s)%nat
  && String.eqb (String.substring (String.length s - String.length suf)
                                  (String.length suf) s) suf.

Definition cons_hd (c : ascii) (l : list string) : list string :=
  match l with
  | [] => [String c ""]
  | x :: xs => String c x :: xs
  end.

Fixpoint split_from (sep : string) (skip : nat) (s : string) : list string :=
  match s with
  | "" => [""]
  | String c s' =>
    match skip with
    | S k => split_from sep k s'
    | O =>
      if startswith s sep
      then "" :: split_from sep (Nat.pred (String.length sep)) s'
      else cons_hd c (split_from sep 0 s')
    end
  end.

Definition split (sep s : string) : list string := split_from sep 0 s.

(** [l[i]] for an index known to be in range. *)
Definition item (l : list string) (i : nat) : string := nth i l "".

(** *** Exceptions

    Instances of [Exception]: the three classes the handlers tell apart,
    [FileNotFoundError] (raised by [render_template]) and any other
    class, unrelated to these, by name.  [TimeoutError] stands for
    [asyncio.TimeoutError], which [asyncio.wait_for] raises. *)

Inductive exc_class :=
| ConnectionResetError
| TimeoutError
| UnboundLocalError
| FileNotFoundError
| OtherException (name : string).

Record exn := Exn { exn_class : exc_class; exn_msg : string }.

Definition is_ConnectionResetError (e : exn) : bool :=
  match exn_class e with ConnectionResetError => true | _ => false end.

Definition is_TimeoutError (e : exn) : bool :=
  match exn_class e with TimeoutError => true | _ => false end.

(** [str(e)], as the f-string field [{e}] renders it. *)
Definition str_of_exn (e : exn) : string := exn_msg e.

(** Reading the local variable [name] before any assignment to it (the
    message is the one of Python 3.11 and later). *)
Definition unbound_local (name : string) : exn :=
  Exn UnboundLocalError
      ("cannot access local variable '" +:+ name
       +:+ "' where it is not associated with a value").

(** *** Actions of a coroutine seen from outside *)

Inductive level := INFO | WARNING | ERROR.

Inductive event :=
| EvLog (lvl : level) (msg : string) (exc_info : bool)
| EvLookup (path : string)
| EvCall
| EvSend (data : bytes)
| EvClose.

(** What [await asyncio.wait_for(loop.sock_recv(sock, n), timeout)]
    yields on a connection: the bytes read (none when the peer closed),
    or an exception ([TimeoutError] when the timeout elapsed first); and
    whether [loop.sock_sendall] completes or raises. *)
Inductive recv_outcome :=
| RecvData (data : bytes)
| RecvRaise (e : exn).

Record socket := Socket { recv_result : recv_outcome; sendall_result : option exn }.

Definition timed_out : recv_outcome := RecvRaise (Exn TimeoutError "").

(** *** The coroutine monad *)

Section Coroutine.

Context {World : Type}.

Record st := St { world : World; trace : list event }.

(** How a block of statements ends. *)
Inductive res (A : Type) :=
| Val (a : A)
| Exc (e : exn)
| Ret.

Arguments Val {A} a.
Arguments Exc {A} e.
Arguments Ret {A}.

Definition M (A : Type) : Type := st -> res A * st.

Definition ret {A} (a : A) : M A := fun s => (Val a, s).

Definition bind {A B} (m : M A) (f : A -> M B) : M B :=
  fun s =>
    match m s with
    | (Val a, s') => f a s'
    | (Exc e, s') => (Exc e, s')
    | (Ret, s') => (Ret, s')
    end.

Definition raise {A} (e : exn) : M A := fun s => (Exc e, s).

(** The statement [return]. *)
Definition return_ {A} : M A := fun s => (Ret, s).

Definition emit (ev : event) : M unit :=
  fun s => (Val tt, St (world s) (trace s ++ [ev])%list).

(** [try: body / except ...: ...]: [handlers e] is the first clause that
    matches [e], if any. *)
Definition try_except {A} (body : M A) (handlers : exn -> option (M A)) : M A :=
  fun s =>
    match body s with
    | (Exc e, s') =>
      match handlers e with
      | Some h => h s'
      | None => (Exc e, s')
      end
    | r => r
    end.

(** [try: body / finally: fin]: [fin] runs on every way out of [body],
    and the way [body] ended stands unless [fin] ends otherwise. *)
Definition try_finally {A} (body : M A) (fin : M unit) : M A :=
  fun s =>
    match body s with
    | (r, s') =>
      match fin s' with
      | (Val _, s'') => (r, s'')
      | (Exc e, s'') => (Exc e, s'')
      | (Ret, s'') => (Ret, s'')
      end
    end.

(** [with suppress(cls): x = body]: when [body] raises an instance of
    [cls] the block is left and [x] stays unassigned ([None] here). *)
Definition suppress_assign {A} (cls : exn -> bool) (body : M A) : M (option A) :=
  fun s =>
    match body s with
    | (Val a, s') => (Val (Some a), s')
    | (Exc e, s') => if cls e then (Val None, s') else (Exc e, s')
    | (Ret, s') => (Ret, s')
    end.

(** [with suppress(cls): body] for a block that assigns nothing read
    later. *)
Definition suppress (cls : exn -> bool) (body : M unit) : M unit :=
  fun s =>
    match body s with
    | (Exc e, s') => if cls e then (Val tt, s') else (Exc e, s')
    | r => r
    end.

(** Reading a local variable that may not have been assigned. *)
Definition load_local {A} (name : string) (x : option A) : M A :=
  match x with
  | Some a => ret a
  | None => raise (unbound_local name)
  end.

Definition logging_info (msg : string) : M unit := emit (EvLog INFO msg false).
Definition logging_warning (msg : string) : M unit := emit (EvLog WARNING msg false).
Definition logging_error (msg : string) (exc_info : bool) : M unit :=
  emit (EvLog ERROR msg exc_info).

Definition wait_for_sock_recv (sock : socket) (bufsize timeout : Z) : M bytes :=
  match recv_result sock with
  | RecvData data => ret data
  | RecvRaise e => raise e
  end.

Definition sock_sendall (sock : socket) (data : bytes) : M unit :=
  bind (emit (EvSend data))
       (fun _ => match sendall_result sock with
                 | None => ret tt
                 | Some e => raise e
                 end).

Definition close (sock : socket) : M unit := emit EvClose.

(** A task made by [asyncio.create_task] runs the coroutine to its end;
    an exception that leaves the coroutine is kept in the task. *)
Definition task_exception {A} (r : res A) : option exn :=
  match r with
  | Exc e => Some e
  | _ => None
  end.

End Coroutine.

Arguments st : clear implicits.
Arguments M : clear implicits.
Arguments Val {A} a.
Arguments Exc {A} e.
Arguments Ret {A}.

End Py.

Import Py.

Notation "x <- c1 ;; c2" := (bind c1 (fun x => c2))
  (at level 100, c1 at next level, right associativity).
Notation "c1 ;; c2" := (bind c1 (fun _ => c2))
  (at level 100, right associativity).

(** ** [server.py]: class [GhuServer] *)

Module GhuServer.

Section Class.

Context {World : Type}.

(** What a call of a route handler does: it returns a body ([str]) or
    [None], as the routes of the repository do, or raises; it may read
    and change the world (the template files, a counter, ...). *)
Inductive handler_result :=
| HReturn (body : option string)
| HRaise (e : exn).

Definition handler : Type := World -> handler_result * World.

Definition HTTP_STATUS : gmap Z string :=
  {[ 200 := "OK";
     400 := "Bad Request";
     404 := "Not Found";
     500 := "Internal Server Error" ]}.

Record GhuServer := {
  host : string;
  port : Z;
  request_buffer_size : Z;
  request_timeout : Z;
  template_folder : string;
  routes : gmap string handler
}.

(** [__init__] with its default arguments. *)
Definition __init__ : GhuServer :=
  {| host := "0.0.0.0";
     port := 8888;
     request_buffer_size := 1024;
     request_timeout := 5;
     template_folder := "templates";
     routes := ∅ |}.

(** [@self.route(path)] applied to [func]: [self.routes[path] = func]. *)
Definition route (self : GhuServer) (path : string) (func : handler) : GhuServer :=
  {| host := host self;
     port := port self;
     request_buffer_size := request_buffer_size self;
     request_timeout := request_timeout self;
     template_folder := template_folder self;
     routes := <[path := func]> (routes self) |}.

Definition default_content_type : string := "text/html; charset=utf-8".

Definition _build_response (status_code : Z) (body : string) (content_type : string) : string :=
  let status_text := default "Unknown" (HTTP_STATUS !! status_code) in
  let response_status :=
    "HTTP/1.1 " +:+ str_of_int status_code +:+ " " +:+ status_text +:+ CRLF in
  let response_headers :=
    response_status
    +:+ ("Content-Type: " +:+ content_type +:+ CRLF)
    +:+ ("Connection: close" +:+ CRLF)
    +:+ CRLF in
  response_headers +:+ body.

(** [route_handler()]. *)
Definition call (h : handler) : M World (option string) :=
  fun s =>
    match h (world s) with
    | (HReturn body, w') => (Val body, St w' (trace s ++ [EvCall])%list)
    | (HRaise e, w') => (Exc e, St w' (trace s ++ [EvCall])%list)
    end.

(** [self.routes.get(path)]. *)
Definition routes_get (self : GhuServer) (path : string) : M World (option handler) :=
  emit (EvLookup path) ;; ret (routes self !! path).

Definition handle_client (self : GhuServer) (client_socket : socket) : M World unit :=
  try_finally
    (try_except
       (request_data <-
          suppress_assign is_TimeoutError
            (wait_for_sock_recv client_socket
               (request_buffer_size self) (request_timeout self)) ;;
        request_data <- load_local "request_data" request_data ;;
        (match request_data with
         | [] => logging_warning "Recebida uma requisição vazia." ;; return_
         | _ :: _ => ret tt
         end) ;;
        let request_text := decode request_data in
        logging_info ("Request:" +:+ NL +:+ request_text) ;;
        let request_line := item (split CRLF request_text) 0 in
        let parts := split " " request_line in
        response <-
          (if (length parts <? 2)%nat then
             ret (_build_response 400 "<h1>400 Bad Request</h1>" default_content_type)
           else
             let method := item parts 0 in
             let path := item parts 1 in
             route_handler <- routes_get self path ;;
             match route_handler with
             | None =>
               ret (_build_response 404 "<h1>404 Not Found</h1>" default_content_type)
             | Some h =>
               try_except
                 (body <- call h ;;
                  match body with
                  | None =>
                    ret (_build_response 404 "<h1>404 Not Found</h1>"
                                         default_content_type)
                  | Some b => ret (_build_response 200 b default_content_type)
                  end)
                 (fun e =>
                    Some (logging_error
                            ("Erro na rota '" +:+ path +:+ "': " +:+ str_of_exn e) true ;;
                          ret (_build_response 500 "<h1>500 Internal Server Error</h1>"
                                               default_content_type)))
             end) ;;
        sock_sendall client_socket (encode response))
       (fun e =>
          if is_ConnectionResetError e then
            Some (logging_warning "Conexão resetada pelo cliente.")
          else if is_TimeoutError e then
            Some (logging_warning "Tempo limite da conexão excedido (sem dados).")
          else
            Some (logging_error
                    ("Erro inesperado ao lidar com o cliente: " +:+ str_of_exn e) true)))
    (close client_socket).

(** One connection served as a task: the actions on the connection, the
    world afterwards and the exception kept in the task, if any. *)
Definition serve (self : GhuServer) (w : World) (client_socket : socket)
  : list event * World * option exn :=
  match handle_client self client_socket (St w []) with
  | (r, s) => (trace s, world s, task_exception r)
  end.

(** The accept loop of [run_server] over the connections that arrive,
    in order: each is handed to a task of its own, and the loop goes on
    to the next whatever became of the task.  The loop never ends by
    itself; the list is the arrivals so far.  Tasks are taken to run one
    after the other, each on its own connection; the set-up of the
    listening socket and the two log records of the loop itself are
    left out. *)
Fixpoint run_server (self : GhuServer) (w : World) (arrivals : list socket)
  : list (list event * option exn) * World :=
  match arrivals with
  | [] => ([], w)
  | client_socket :: rest =>
    match serve self w client_socket with
    | (t, w', e) =>
      match run_server self w' rest with
      | (ts, w'') => ((t, e) :: ts, w'')
      end
    end
  end.

End Class.

Arguments handler : clear implicits.
Arguments GhuServer : clear implicits.

(** [os.path.join(a, b)] on a POSIX system. *)
Definition os_path_join (a b : string) : string :=
  if startswith b "/" then b
  else if (String.eqb a "" || endswith a "/")%bool then a +:+ b
  else a +:+ "/" +:+ b.

(** [render_template]: the world is the set of readable files, by path;
    a missing file is reported under the name that was asked for. *)
Definition render_template (self : GhuServer (gmap string string)) (template_name : string)
  : handler (gmap string string) :=
  fun fs =>
    let template_path := os_path_join (template_folder self) template_name in
    match fs !! template_path with
    | Some content => (HReturn (Some content), fs)
    | None =>
      (HRaise (Exn FileNotFoundError
                   ("Template não encontrado: '" +:+ template_name +:+ "'")), fs)
    end.

(** The two routes of the [__main__] block. *)
Definition index : handler (gmap string string) :=
  render_template __init__ "index.html".

Definition hello {World : Type} : handler World :=
  fun w => (HReturn (Some "<h1>Hello World!</h1><p>HEHEHE It's works!!!</p>"), w).

Definition server : GhuServer (gmap string string) :=
  route (route __init__ "/" index) "/hello" hello.

End GhuServer.

(** ** [main.py]: the fixed-response server *)

Module Main.

Definition HOST : string := "0.0.0.0".
Definition PORT : Z := 8888.
Definition REQUEST_BUFFER_SIZE : Z := 1024.
Definition REQUEST_TIMEOUT : Z := 5.

(** The triple-quoted literal of lines 41 to 49, line by line. *)
Definition response_body : string :=
  NL
  +:+ "        <html>" +:+ NL
  +:+ "        <head><title>Hello World!</title></head>" +:+ NL
  +:+ "        <body>" +:+ NL
  +:+ "            <h1>Ghu is ALIVE!</h1>" +:+ NL
  +:+ "            <p>This is an example HTML response from an asyncio server.</p>" +:+ NL
  +:+ "        </body>" +:+ NL
  +:+ "        </html>" +:+ NL
  +:+ "        ".

Definition response : string :=
  ("HTTP/1.1 200 OK" +:+ CRLF)
  +:+ ("Content-Type: text/html" +:+ CRLF)
  +:+ ("Connection: close" +:+ CRLF)
  +:+ CRLF
  +:+ response_body.

Section Coroutines.

Context {World : Type}.

Definition handle_client (client_socket : socket) : M World unit :=
  try_finally
    (try_except
       (suppress is_TimeoutError
          (request_data <-
             wait_for_sock_recv client_socket REQUEST_BUFFER_SIZE REQUEST_TIMEOUT ;;
           (match request_data with
            | [] => logging_warning "Empty request received." ;; return_
            | _ :: _ => ret tt
            end) ;;
           logging_info ("Received request:" +:+ NL +:+ decode request_data)) ;;
        sock_sendall client_socket (encode response))
       (fun e =>
          if is_ConnectionResetError e then
            Some (logging_warning "Connection reset by peer.")
          else if is_TimeoutError e then
            Some (logging_warning "Client connection timed out (no data).")
          else
            Some (logging_error
                    ("Unexpected error while handling client: " +:+ str_of_exn e) true)))
    (close client_socket).

Definition serve (w : World) (client_socket : socket) : list event * World * option exn :=
  match handle_client client_socket (St w []) with
  | (r, s) => (trace s, world s, task_exception r)
  end.

(** The accept loop of [run_server], as for [server.py]: the arrivals so
    far, each handed to a task of its own, the tasks taken one after the
    other. *)
Fixpoint run_server (w : World) (arrivals : list socket)
  : list (list event * option exn) * World :=
  match arrivals with
  | [] => ([], w)
  | client_socket :: rest =>
    match serve w client_socket with
    | (t, w', e) =>
      match run_server w' rest with
      | (ts, w'') => ((t, e) :: ts, w'')
      end
    end
  end.

End Coroutines.

End Main.

(** ** What a client and an operator observe of a trace *)

(** The byte strings handed to [sock_sendall], in order. *)
Fixpoint sent (t : list event) : list bytes :=
  match t with
  | [] => []
  | EvSend data :: t' => data :: sent t'
  | _ :: t' => sent t'
  end.

(** How many times the socket was closed. *)
Fixpoint closes (t : list event) : nat :=
  match t with
  | [] => O
  | EvClose :: t' => S (closes t')
  | _ :: t' => closes t'
  end.

(** The route lookups and the handler calls of a trace. *)
Fixpoint lookups (t : list event) : list string :=
  match t with
  | [] => []
  | EvLookup path :: t' => path :: lookups t'
  | _ :: t' => lookups t'
  end.

Fixpoint calls (t : list event) : nat :=
  match t with
  | [] => O
  | EvCall :: t' => S (calls t')
  | _ :: t' => calls t'
  end.

(** The log records of a trace, with their levels. *)
Fixpoint logged (t : list event) : list (level * string) :=
  match t with
  | [] => []
  | EvLog lvl msg _ :: t' => (lvl, msg) :: logged t'
  | _ :: t' => logged t'
  end.

(** The body of a response: the text after the first blank line (the
    empty text when there is no blank line). *)
Fixpoint body_of (response : string) : string :=
  match response with
  | "" => ""
  | String c1 r1 =>
    match r1 with
    | String c2 (String c3 (String c4 r4)) =>
      if (Ascii.eqb c1 CR && Ascii.eqb c2 LF && Ascii.eqb c3 CR && Ascii.eqb c4 LF)%bool
      then r4
      else body_of r1
    | _ => ""
    end
  end.

(** The status line of a response: the text before the first line end. *)
Definition status_line (response : string) : string := item (split CRLF response) 0.

(** The header lines of a response: the lines after the status line, up
    to the blank line. *)
Fixpoint until_blank (lines : list string) : list string :=
  match lines with
  | [] => []
  | "" :: _ => []
  | l :: ls => l :: until_blank ls
  end.

Definition header_lines (response : string) : list string :=
  until_blank (tl (split CRLF response)).

(** How many times the character [c] occurs in [s]. *)
Fixpoint count_char (c : ascii) (s : string) : nat :=
  match s with
  | "" => O
  | String c' s' => if Ascii.eqb c c' then S (count_char c s') else count_char c s'
  end.

(** The request line and its tokens, as lines 95 and 96 compute them. *)
Definition request_line (data : bytes) : string := item (split CRLF (decode data)) 0.
Definition parts (data : bytes) : list string := split " " (request_line data).

(** ** Closed forms of the runs, used by the proofs *)

Section Answers.

Context {World : Type}.

Import GhuServer.

(** The three fixed responses of [handle_client]. *)
Definition bad_request : string :=
  _build_response 400 "<h1>400 Bad Request</h1>" default_content_type.
Definition not_found : string :=
  _build_response 404 "<h1>404 Not Found</h1>" default_content_type.
Definition server_error : string :=
  _build_response 500 "<h1>500 Internal Server Error</h1>" default_content_type.

(** The log record that the [except] clauses of [handle_client] write
    for an exception that reaches them. *)
Definition on_exception (e : exn) : event :=
  if is_ConnectionResetError e then
    EvLog WARNING "Conexão resetada pelo cliente." false
  else if is_TimeoutError e then
    EvLog WARNING "Tempo limite da conexão excedido (sem dados)." false
  else
    EvLog ERROR ("Erro inesperado ao lidar com o cliente: " +:+ str_of_exn e) true.

(** The response that lines 95 to 113 of [handle_client] build for the
    request [data] in the world [w], with the actions they take and the
    world they leave. *)
Definition answer (self : GhuServer World) (data : bytes) (w : World)
  : string * list event * World :=
  if (length (parts data) <? 2)%nat then (bad_request, [], w)
  else
    let path := item (parts data) 1 in
    match routes self !! path with
    | None => (not_found, [EvLookup path], w)
    | Some h =>
      match h w with
      | (HReturn None, w') => (not_found, [EvLookup path; EvCall], w')
      | (HReturn (Some b), w') =>
        (_build_response 200 b default_content_type, [EvLookup path; EvCall], w')
      | (HRaise e, w') =>
        (server_error,
         [EvLookup path; EvCall;
          EvLog ERROR ("Erro na rota '" +:+ path +:+ "': " +:+ str_of_exn e) true],
         w')
      end
    end.

End Answers.

(** The log record that the [except] clauses of [main.py]'s
    [handle_client] write for an exception that reaches them. *)
Definition main_on_exception (e : exn) : event :=
  if is_ConnectionResetError e then
    EvLog WARNING "Connection reset by peer." false
  else if is_TimeoutError e then
    EvLog WARNING "Client connection timed out (no data)." false
  else
    EvLog ERROR ("Unexpected error while handling client: " +:+ str_of_exn e) true.

(** After [main.py] hands its response to [sock_sendall]: the log record
    of a failed write, if any, and the close. *)
Definition main_tail (sock : socket) : list event :=
  (match sendall_result sock with
   | None => []
   | Some e => [main_on_exception e]
   end ++ [EvClose])%list.

(** The parts of a served connection: its actions, the world it leaves
    and the exception kept in its task. *)
Definition trace_of {W : Type} (run : list event * W * option exn) : list event := run.1.1.
Definition world_of {W : Type} (run : list event * W * option exn) : W := run.1.2.
Definition exception_of {W : Type} (run : list event * W * option exn) : option exn := run.2.

(** ** The response format as the specification words it *)

(** The reason phrase of a status code. *)
Definition reason (code : Z) : string :=
  if (code =? 200)%Z then "OK"
  else if (code =? 400)%Z then "Bad Request"
  else if (code =? 404)%Z then "Not Found"
  else if (code =? 500)%Z then "Internal Server Error"
  else "Unknown".

(** Status line, the two headers, a blank line, the body. *)
Definition framed (code : Z) (body content_type : string) : string :=
  "HTTP/1.1 " +:+ str_of_int code +:+ " " +:+ reason code +:+ CRLF
  +:+ "Content-Type: " +:+ content_type +:+ CRLF
  +:+ "Connection: close" +:+ CRLF
  +:+ CRLF
  +:+ body.

(** ** Connections used as examples *)

(** A connection on which [text] is read and the write succeeds. *)
Definition request (text : string) : socket := Socket (RecvData (encode text)) None.

(** The text of a request for [path] with the method [method]. *)
Definition request_for (method path : string) : string :=
  method +:+ " " +:+ path +:+ " HTTP/1.1" +:+ CRLF +:+ CRLF.

(** A connection on which the read times out. *)
Definition idle : socket := Socket timed_out None.

(** A template directory holding [index.html], and one holding nothing. *)
Definition with_index : gmap string string :=
  {[ "templates/index.html" := "<h1>Index</h1>" ]}.
Definition no_files : gmap string string := ∅.

(** A handler that signals no content. *)
Definition silent {World : Type} : GhuServer.handler World :=
  fun w => (GhuServer.HReturn None, w).

(** A route table that answers [/] with the body of [main.py]. *)
Definition fixed_body {World : Type} : GhuServer.handler World :=
  fun w => (GhuServer.HReturn (Some Main.response_body), w).
Definition table_of_fixed : GhuServer.GhuServer () :=
  GhuServer.route GhuServer.__init__ "/" fixed_body.

(** ** Notions for the properties of the rest of the code *)

(** The text is made of ASCII characters only. *)
Definition ascii_only (s : string) : bool := forallb (between 0 127) (encode s).

(** The ASCII bytes of a byte string, in order. *)
Definition ascii_bytes (data : bytes) : bytes := List.filter (between 0 127) data.

Section PathAnswers.

Context {World : Type}.

Import GhuServer.

(** The response to a request whose path token is [path], in the world
    [w], and the world that the request leaves. *)
Definition response_for (self : GhuServer World) (path : string) (w : World) : string :=
  match routes self !! path with
  | None => not_found
  | Some h =>
    match (h w).1 with
    | HReturn (Some body) => _build_response 200 body default_content_type
    | HReturn None => not_found
    | HRaise _ => server_error
    end
  end.

Definition world_after (self : GhuServer World) (path : string) (w : World) : World :=
  match routes self !! path with
  | None => w
  | Some h => (h w).2
  end.

(** No handler of the route table changes the world. *)
Definition read_only (self : GhuServer World) : Prop :=
  forall path h w, routes self !! path = Some h -> (h w).2 = w.

End PathAnswers.

(** What the deployment of the [__main__] block answers for [path],
    given the readable files. *)
Definition deployed (fs : gmap string string) (path : string) : string :=
  if String.eqb path "/hello" then
    GhuServer._build_response 200 "<h1>Hello World!</h1><p>HEHEHE It's works!!!</p>"
                              GhuServer.default_content_type
  else if String.eqb path "/" then
    match fs !! "templates/index.html" with
    | Some content =>
      GhuServer._build_response 200 content GhuServer.default_content_type
    | None => server_error
    end
  else not_found.

(** The four status lines that [handle_client] produces. *)
Definition status_lines : list string :=
  ["HTTP/1.1 200 OK"; "HTTP/1.1 400 Bad Request"; "HTTP/1.1 404 Not Found";
   "HTTP/1.1 500 Internal Server Error"].

(** ** Tokens and spaces *)

Section Tokens.

Lemma append_cons c a x : String c a +:+ x = String c (a +:+ x).
Proof. reflexivity. Qed.

Lemma split_from_cons sep k s : exists x xs, split_from sep k s = x :: xs.
Proof.
  revert k; induction s as [|c s IH]; intros k; simpl.
  - eauto.
  - destruct k as [|k]; [|apply IH].
    destruct (startswith _ _); [eauto|].
    destruct (IH O) as (x & xs & ->); simpl; eauto.
Qed.

Lemma length_cons_hd c l : l <> [] -> length (cons_hd c l) = length l.
Proof. destruct l; simpl; congruence. Qed.

(** [split(" ")] yields one token more than there are spaces. *)
Lemma length_split_space s : length (split " " s) = S (count_char " " s).
Proof.
  unfold split; induction s as [|c s IH]; [reflexivity|].
  cbn -[Ascii.eqb]; rewrite Bool.andb_true_r.
  destruct (Ascii.eqb " " c); simpl.
  - now rewrite IH.
  - rewrite length_cons_hd, IH; [reflexivity|].
    destruct (split_from_cons " " 0 s) as (x & xs & ->); discriminate.
Qed.

(** A token without space, followed by a space, is cut off whole. *)
Lemma split_space_app a b :
  count_char " " a = O -> split " " (a +:+ " " +:+ b) = a :: split " " b.
Proof.
  unfold split; induction a as [|c a IH]; [reflexivity|].
  rewrite ?(append_cons c a); cbn -[Ascii.eqb]; rewrite Bool.andb_true_r.
  destruct (Ascii.eqb " " c); [discriminate|].
  intros H; rewrite (IH H); reflexivity.
Qed.

Lemma split_space_last a : count_char " " a = O -> split " " a = [a].
Proof.
  unfold split; induction a as [|c a IH]; [reflexivity|].
  rewrite ?(append_cons c a); cbn -[Ascii.eqb]; rewrite Bool.andb_true_r.
  destruct (Ascii.eqb " " c); [discriminate|].
  intros H; rewrite (IH H); reflexivity.
Qed.

End Tokens.

(** ** The runs of [handle_client] in closed form *)

(** Unfolding the statements of a coroutine down to state passing. *)
Ltac run_coroutine :=
  unfold try_finally, try_except, suppress_assign, suppress, wait_for_sock_recv,
    load_local, logging_info, logging_warning, logging_error, sock_sendall, close,
    bind, ret, emit, raise.

(** Computing a run while the codec, the tokens and the responses stay
    folded. *)
Ltac step :=
  cbn -[decode encode split GhuServer._build_response Main.response Nat.ltb].

(** The end of a run once the response is known: the write, the log
    record of a failed write, the close. *)
Ltac finish_send sock :=
  unfold on_exception, main_tail, main_on_exception; step;
  destruct (sendall_result sock) as [e'|]; step;
  [destruct (is_ConnectionResetError e'); [|destruct (is_TimeoutError e')]|];
  step; rewrite <- ?app_assoc; reflexivity.

Section Runs.

Context {World : Type}.

Import GhuServer.

Implicit Types (self : GhuServer World) (w : World) (sock : socket).

Lemma serve_data self w sock b d :
  recv_result sock = RecvData (b :: d) ->
  serve self w sock =
  let '(r, evs, w') := answer self (b :: d) w in
  ((EvLog INFO ("Request:" +:+ NL +:+ decode (b :: d)) false :: evs)
     ++ EvSend (encode r)
     :: match sendall_result sock with
        | None => []
        | Some e => [on_exception e]
        end ++ [EvClose],
   w', None)%list.
Proof.
  intros Hrecv.
  unfold serve, handle_client, answer, parts, request_line, routes_get, call.
  run_coroutine. rewrite Hrecv; step.
  destruct (length _ <? 2)%nat; [finish_send sock|].
  destruct (routes self !! _) as [h|]; [|finish_send sock].
  step. destruct (h w) as [[[body|]|e] w']; finish_send sock.
Qed.

Lemma serve_empty self w sock :
  recv_result sock = RecvData [] ->
  serve self w sock =
  ([EvLog WARNING "Recebida uma requisição vazia." false; EvClose], w, None).
Proof.
  intros Hrecv. unfold serve, handle_client. run_coroutine.
  rewrite Hrecv; reflexivity.
Qed.

(** When the read raises: a timeout is suppressed and the next statement
    reads [request_data] unassigned; anything else goes to the [except]
    clauses as it is. *)
Lemma serve_raise self w sock e :
  recv_result sock = RecvRaise e ->
  serve self w sock =
  ([on_exception (if is_TimeoutError e then unbound_local "request_data" else e);
    EvClose], w, None).
Proof.
  intros Hrecv. unfold serve, handle_client, on_exception. run_coroutine.
  rewrite Hrecv.
  destruct (is_TimeoutError e) eqn:Ht; cbn; [reflexivity|].
  rewrite Ht. destruct (is_ConnectionResetError e); reflexivity.
Qed.

End Runs.

Section MainRuns.

Context {World : Type}.

Implicit Types (w : World) (sock : socket).

Lemma main_serve_data w sock b d :
  recv_result sock = RecvData (b :: d) ->
  Main.serve w sock =
  (EvLog INFO ("Received request:" +:+ NL +:+ decode (b :: d)) false
     :: EvSend (encode Main.response) :: main_tail sock, w, None).
Proof.
  intros Hrecv. unfold Main.serve, Main.handle_client. run_coroutine.
  rewrite Hrecv. finish_send sock.
Qed.

Lemma main_serve_empty w sock :
  recv_result sock = RecvData [] ->
  Main.serve w sock = ([EvLog WARNING "Empty request received." false; EvClose], w, None).
Proof.
  intros Hrecv. unfold Main.serve, Main.handle_client. run_coroutine.
  rewrite Hrecv; reflexivity.
Qed.

(** When the read raises: a timeout is suppressed and the response is
    sent all the same; anything else goes to the [except] clauses. *)
Lemma main_serve_raise w sock e :
  recv_result sock = RecvRaise e ->
  Main.serve w sock =
  (if is_TimeoutError e
   then EvSend (encode Main.response) :: main_tail sock
   else [main_on_exception e; EvClose], w, None).
Proof.
  intros Hrecv. unfold Main.serve, Main.handle_client. run_coroutine.
  rewrite Hrecv.
  destruct (is_TimeoutError e) eqn:Ht; [finish_send sock|].
  unfold main_on_exception; step.
  rewrite Ht. destruct (is_ConnectionResetError e); reflexivity.
Qed.

End MainRuns.

(** ** The response builder *)

Section Builder.

Import GhuServer.

Lemma append_assoc (a b c : string) : (a +:+ b) +:+ c = a +:+ (b +:+ c).
Proof. induction a as [|x a IH]; [reflexivity|]. now rewrite !append_cons, IH. Qed.

Lemma count_char_app c a b :
  count_char c (a +:+ b) = (count_char c a + count_char c b)%nat.
Proof.
  induction a as [|x a IH]; [reflexivity|].
  rewrite append_cons; cbn -[Ascii.eqb]. destruct (Ascii.eqb c x); lia.
Qed.

(** The status table, read as [dict.get] with its default reads it. *)
Lemma status_text_reason (code : Z) :
  default "Unknown" (HTTP_STATUS !! code) = reason code.
Proof.
  unfold reason, HTTP_STATUS.
  destruct (Z.eqb_spec code 200) as [->|H200]; [reflexivity|].
  destruct (Z.eqb_spec code 400) as [->|H400]; [reflexivity|].
  destruct (Z.eqb_spec code 404) as [->|H404]; [reflexivity|].
  destruct (Z.eqb_spec code 500) as [->|H500]; [reflexivity|].
  rewrite !lookup_insert_ne by congruence.
  rewrite lookup_singleton_ne by congruence. reflexivity.
Qed.

Lemma build_response_framed code body content_type :
  _build_response code body content_type = framed code body content_type.
Proof.
  unfold _build_response, framed.
  rewrite status_text_reason, !append_assoc. reflexivity.
Qed.

(** A decimal numeral has no carriage return in it. *)
Lemma no_CR_uint d : count_char CR (NilEmpty.string_of_uint d) = O.
Proof. induction d; simpl; auto. Qed.

Lemma no_CR_int (n : Z) : count_char CR (str_of_int n) = O.
Proof.
  unfold str_of_int, NilZero.string_of_int, NilZero.string_of_uint.
  destruct (Z.to_int n) as [d|d]; destruct d; try reflexivity;
    apply (no_CR_uint (_ d)) || (simpl; apply no_CR_uint).
Qed.

Lemma no_CR_reason code : count_char CR (reason code) = O.
Proof. unfold reason. repeat destruct (_ =? _)%Z; reflexivity. Qed.

(** A line without carriage return, ended by CR LF, is cut off whole. *)
Lemma split_CRLF_app a b :
  count_char CR a = O -> split CRLF (a +:+ CRLF +:+ b) = a :: split CRLF b.
Proof.
  unfold split; induction a as [|c a IH]; [reflexivity|].
  rewrite (append_cons c a); cbn -[Ascii.eqb].
  destruct (Ascii.eqb CR c); [discriminate|]. cbn -[Ascii.eqb].
  intros H; rewrite (IH H); reflexivity.
Qed.

Lemma split_framed code body content_type :
  split CRLF (framed code body content_type) =
  ("HTTP/1.1 " +:+ str_of_int code +:+ " " +:+ reason code)
    :: split CRLF ("Content-Type: " +:+ content_type +:+ CRLF
                   +:+ "Connection: close" +:+ CRLF +:+ CRLF +:+ body).
Proof.
  unfold framed.
  rewrite <- (split_CRLF_app ("HTTP/1.1 " +:+ str_of_int code +:+ " " +:+ reason code)).
  - now rewrite !append_assoc.
  - rewrite !count_char_app, no_CR_int, no_CR_reason. reflexivity.
Qed.

(** C3: for every status code, body and content type the response
    builder returns exactly the status line [HTTP/1.1 <code> <reason>],
    the headers [Content-Type: <content type>] and [Connection: close],
    a blank line and then the body as it is, where the reason is OK,
    Bad Request, Not Found, Internal Server Error for 200, 400, 404, 500
    and Unknown for every other code ([framed] and [reason]); with the
    default content type, which is [text/html; charset=utf-8], these two
    header lines are all the header lines there are, so that no
    Content-Length header is emitted. *)
Theorem C3_build_response_format (code : Z) (body content_type : string) :
  _build_response code body content_type = framed code body content_type
  /\ header_lines (_build_response code body default_content_type)
     = ["Content-Type: text/html; charset=utf-8"; "Connection: close"]
  /\ default_content_type = "text/html; charset=utf-8".
Proof.
  split; [apply build_response_framed|]. split; [|reflexivity].
  unfold header_lines. rewrite build_response_framed, split_framed. reflexivity.
Qed.

End Builder.

(** ** What is observed of a run *)

Section Observed.

Context {World : Type}.

Import GhuServer.

Implicit Types (self : GhuServer World) (w : World) (sock : socket).

Lemma sent_app t1 t2 : sent (t1 ++ t2) = (sent t1 ++ sent t2)%list.
Proof. induction t1 as [|[] t1 IH]; simpl; congruence. Qed.

Lemma closes_app t1 t2 : closes (t1 ++ t2) = (closes t1 + closes t2)%nat.
Proof. induction t1 as [|[] t1 IH]; simpl; congruence. Qed.

Lemma lookups_app t1 t2 : lookups (t1 ++ t2) = (lookups t1 ++ lookups t2)%list.
Proof. induction t1 as [|[] t1 IH]; simpl; congruence. Qed.

Lemma calls_app t1 t2 : calls (t1 ++ t2) = (calls t1 + calls t2)%nat.
Proof. induction t1 as [|[] t1 IH]; simpl; congruence. Qed.

Lemma on_exception_log e : exists lvl msg b, on_exception e = EvLog lvl msg b.
Proof.
  unfold on_exception.
  destruct (is_ConnectionResetError e); [|destruct (is_TimeoutError e)]; eauto.
Qed.

Lemma main_on_exception_log e : exists lvl msg b, main_on_exception e = EvLog lvl msg b.
Proof.
  unfold main_on_exception.
  destruct (is_ConnectionResetError e); [|destruct (is_TimeoutError e)]; eauto.
Qed.

(** Building the response neither writes to the socket nor closes it. *)
Lemma answer_quiet self data w :
  sent (answer self data w).1.2 = [] /\ closes (answer self data w).1.2 = O.
Proof.
  unfold answer. destruct (_ <? _)%nat; [now split|].
  destruct (routes self !! _) as [h|]; [|now split].
  destruct (h w) as [[[b|]|e] w']; now split.
Qed.

Lemma answer_bad self data w :
  (length (parts data) < 2)%nat -> answer self data w = (bad_request, [], w).
Proof. intros H. unfold answer. now apply Nat.ltb_lt in H as ->. Qed.

Lemma answer_missing self data w :
  (2 <= length (parts data))%nat ->
  routes self !! item (parts data) 1 = None ->
  answer self data w = (not_found, [EvLookup (item (parts data) 1)], w).
Proof.
  intros H Hr. unfold answer, handler in *.
  apply Nat.ltb_ge in H as ->. cbv zeta. now rewrite Hr.
Qed.

Lemma answer_call self data w h :
  (2 <= length (parts data))%nat ->
  routes self !! item (parts data) 1 = Some h ->
  answer self data w =
  let path := item (parts data) 1 in
  match h w with
  | (HReturn None, w') => (not_found, [EvLookup path; EvCall], w')
  | (HReturn (Some b), w') =>
    (_build_response 200 b default_content_type, [EvLookup path; EvCall], w')
  | (HRaise e, w') =>
    (server_error,
     [EvLookup path; EvCall;
      EvLog ERROR ("Erro na rota '" +:+ path +:+ "': " +:+ str_of_exn e) true],
     w')
  end.
Proof.
  intros H Hr. unfold answer, handler in *.
  apply Nat.ltb_ge in H as ->. cbv zeta. now rewrite Hr.
Qed.

(** A request that was received is answered once and closed once. *)
Lemma serve_data_observed self w sock b d :
  recv_result sock = RecvData (b :: d) ->
  let run := serve self w sock in
  let ans := answer self (b :: d) w in
  sent (trace_of run) = [encode ans.1.1]
  /\ closes (trace_of run) = 1%nat
  /\ lookups (trace_of run) = lookups ans.1.2
  /\ calls (trace_of run) = calls ans.1.2
  /\ world_of run = ans.2
  /\ exception_of run = None.
Proof.
  intros Hrecv run ans; subst run ans. rewrite (serve_data _ _ _ _ _ Hrecv).
  destruct (answer_quiet self (b :: d) w) as [Hs Hc].
  destruct (answer self (b :: d) w) as [[r evs] w']; cbn in Hs, Hc.
  unfold trace_of, world_of, exception_of; cbn -[encode].
  rewrite sent_app, closes_app, lookups_app, calls_app, Hs, Hc; cbn -[encode].
  rewrite sent_app, closes_app, lookups_app, calls_app.
  destruct (sendall_result sock) as [e|]; cbn.
  - destruct (on_exception_log e) as (l & m & x & ->); cbn.
    rewrite app_nil_r. repeat split; lia.
  - rewrite app_nil_r. repeat split; lia.
Qed.

(** [server.py] closes the socket once and leaves nothing in the task. *)
Lemma table_closed_once self w sock :
  closes (trace_of (serve self w sock)) = 1%nat
  /\ exception_of (serve self w sock) = None.
Proof.
  destruct (recv_result sock) as [[|b d]|e] eqn:Hrecv.
  - now rewrite (serve_empty _ _ _ Hrecv).
  - now destruct (serve_data_observed self w sock b d Hrecv) as (_ & Hc & _ & _ & _ & He).
  - rewrite (serve_raise _ _ _ _ Hrecv).
    now destruct (on_exception_log (if is_TimeoutError e then unbound_local "request_data" else e))
      as (l & m & x & ->).
Qed.

End Observed.

(** ** The connection handler of [server.py] *)

Section Connection.

Context {World : Type}.

Import GhuServer.

Implicit Types (self : GhuServer World) (w : World) (sock : socket).

Lemma parts_nil : parts [] = [""].
Proof. reflexivity. Qed.

Lemma received_nonempty data : (2 <= length (parts data))%nat -> data <> [].
Proof. intros H ->. rewrite parts_nil in H. simpl in H. lia. Qed.

(** C1 (as amended): every accepted connection has its socket closed
    exactly once, nothing is left in its task, and at most one response
    is handed to the socket: exactly one when a request of at least one
    byte was read (whichever of success, parse failure, missing route or
    handler exception produced the response), and none when the read
    timed out, was reset or returned no bytes. *)
Theorem C1_closed_once_at_most_one_response self w sock :
  let run := serve self w sock in
  closes (trace_of run) = 1%nat
  /\ exception_of run = None
  /\ length (sent (trace_of run))
     = match recv_result sock with
       | RecvData (_ :: _) => 1%nat
       | _ => O
       end.
Proof.
  intros run; subst run.
  destruct (recv_result sock) as [[|b d]|e] eqn:Hrecv.
  - rewrite (serve_empty _ _ _ Hrecv). now repeat split.
  - destruct (serve_data_observed self w sock b d Hrecv) as (Hs & Hc & _ & _ & _ & He).
    rewrite Hs. now repeat split.
  - rewrite (serve_raise _ _ _ _ Hrecv).
    destruct (on_exception_log (if is_TimeoutError e then unbound_local "request_data" else e))
      as (l & m & x & ->).
    now repeat split.
Qed.

(** C7: what the code does when the read times out with no data.  The
    timeout is suppressed, [request_data] is read unassigned, and the
    resulting [UnboundLocalError] is logged by the last [except] clause,
    at level ERROR, as an unexpected error; nothing is sent and the
    socket is closed once. *)
Theorem C7_timeout_logged_as_unexpected_error self w (sendall : option exn) :
  let run := serve self w (Socket timed_out sendall) in
  sent (trace_of run) = []
  /\ closes (trace_of run) = 1%nat
  /\ logged (trace_of run)
     = [(ERROR, "Erro inesperado ao lidar com o cliente: "
                +:+ str_of_exn (unbound_local "request_data"))].
Proof. now repeat split. Qed.

(** C5: a received request whose request line has fewer than two tokens
    is answered 400 with the minimal error body, without any route
    lookup or handler call (the world is left as it was). *)
Theorem C5_short_request_line_400 self w sock data :
  recv_result sock = RecvData data ->
  data <> [] ->
  (length (parts data) < 2)%nat ->
  let run := serve self w sock in
  sent (trace_of run) = [encode bad_request]
  /\ status_line bad_request = "HTTP/1.1 400 Bad Request"
  /\ body_of bad_request = "<h1>400 Bad Request</h1>"
  /\ lookups (trace_of run) = []
  /\ calls (trace_of run) = O
  /\ world_of run = w.
Proof.
  intros Hrecv Hne Hlen run; subst run.
  destruct data as [|b d]; [congruence|].
  destruct (serve_data_observed self w sock b d Hrecv) as (Hs & _ & Hl & Hk & Hw & _).
  rewrite (answer_bad _ _ _ Hlen) in Hs, Hl, Hk, Hw.
  now repeat split.
Qed.

(** C4: a request whose path token is not a key of the route table is
    answered 404, and one whose path is registered with a handler that
    returns [None] gets the very same bytes: the 404 status and the same
    minimal body. *)
Theorem C4_missing_or_empty_route_404 self w sock data :
  recv_result sock = RecvData data ->
  (2 <= length (parts data))%nat ->
  (routes self !! item (parts data) 1 = None
   \/ exists h w', routes self !! item (parts data) 1 = Some h
                   /\ h w = (HReturn None, w')) ->
  sent (trace_of (serve self w sock)) = [encode not_found]
  /\ status_line not_found = "HTTP/1.1 404 Not Found"
  /\ body_of not_found = "<h1>404 Not Found</h1>".
Proof.
  intros Hrecv Hlen Hroute.
  pose proof (received_nonempty _ Hlen) as Hne.
  destruct data as [|b d]; [congruence|].
  destruct (serve_data_observed self w sock b d Hrecv) as (Hs & _).
  rewrite Hs. repeat split.
  destruct Hroute as [Hnone|(h & w' & Hsome & Hcall)].
  - now rewrite (answer_missing _ _ _ Hlen Hnone).
  - rewrite (answer_call _ _ _ _ Hlen Hsome); cbv zeta. now rewrite Hcall.
Qed.

(** The accept loop after one connection: the rest of the arrivals are
    served from the world that connection left. *)
Lemma run_server_cons self w sock rest :
  run_server self w (sock :: rest) =
  let run := serve self w sock in
  ((trace_of run, exception_of run) :: (run_server self (world_of run) rest).1,
   (run_server self (world_of run) rest).2).
Proof.
  simpl. destruct (serve self w sock) as [[t w'] e]; cbn.
  now destruct (run_server self w' rest).
Qed.

(** The accept loop serves every arrival, and no task keeps an
    exception. *)
Lemma run_server_serves_all self w arrivals :
  length (run_server self w arrivals).1 = length arrivals
  /\ Forall (fun task => task.2 = None) (run_server self w arrivals).1.
Proof.
  revert w; induction arrivals as [|sock rest IH]; intros w; [now split|].
  rewrite run_server_cons; cbv zeta; cbn [fst snd length].
  destruct (IH (world_of (serve self w sock))) as [Hlen Hall].
  split; [now rewrite Hlen|].
  constructor; [|exact Hall].
  apply table_closed_once.
Qed.

(** C6: when the handler registered for the requested path raises, the
    connection is answered 500 with the minimal error body, no exception
    is left in the task, and the accept loop goes on to serve the
    connections that arrive afterwards, from the world the handler
    left. *)
Theorem C6_handler_exception_500 self w sock data h e w' :
  recv_result sock = RecvData data ->
  (2 <= length (parts data))%nat ->
  routes self !! item (parts data) 1 = Some h ->
  h w = (HRaise e, w') ->
  let run := serve self w sock in
  sent (trace_of run) = [encode server_error]
  /\ status_line server_error = "HTTP/1.1 500 Internal Server Error"
  /\ body_of server_error = "<h1>500 Internal Server Error</h1>"
  /\ closes (trace_of run) = 1%nat
  /\ exception_of run = None
  /\ forall rest,
       run_server self w (sock :: rest) =
       ((trace_of run, None) :: (run_server self w' rest).1,
        (run_server self w' rest).2)
       /\ length (run_server self w (sock :: rest)).1 = S (length rest)
       /\ Forall (fun task => task.2 = None) (run_server self w (sock :: rest)).1.
Proof.
  intros Hrecv Hlen Hsome Hcall run; subst run.
  pose proof (received_nonempty _ Hlen) as Hne.
  destruct data as [|b d]; [congruence|].
  destruct (serve_data_observed self w sock b d Hrecv) as (Hs & Hc & _ & _ & Hw & He).
  rewrite (answer_call _ _ _ _ Hlen Hsome) in Hs, Hw; cbv zeta in Hs, Hw.
  rewrite Hcall in Hs, Hw; cbn in Hs, Hw.
  do 5 (split; [assumption || reflexivity|]).
  intros rest. split; [|apply (run_server_serves_all self w (sock :: rest))].
  rewrite run_server_cons; cbv zeta. now rewrite Hw, He.
Qed.

End Connection.

(** ** Routing *)

Section Routing.

Context {World : Type}.

Import GhuServer.

Implicit Types (self : GhuServer World) (w : World) (sock : socket).

Lemma encode_inj s1 s2 : encode s1 = encode s2 -> s1 = s2.
Proof.
  unfold encode; intros H.
  rewrite <- (string_of_list_byte_of_string s1), H.
  apply string_of_list_byte_of_string.
Qed.

(** The tokens of [GET <path> HTTP/1.1] for a path without space. *)
Lemma parts_of_get data path :
  request_line data = "GET " +:+ path +:+ " HTTP/1.1" ->
  count_char " " path = O ->
  parts data = ["GET"; path; "HTTP/1.1"].
Proof.
  intros Hline Hpath. unfold parts. rewrite Hline.
  change ("GET " +:+ path +:+ " HTTP/1.1")
    with ("GET" +:+ " " +:+ (path +:+ " " +:+ "HTTP/1.1")).
  rewrite split_space_app by reflexivity.
  rewrite split_space_app by assumption.
  now rewrite split_space_last.
Qed.

(** C2 (as amended): for every registered path that contains no space
    and whose handler returns a body string B, a request whose request
    line is [GET <path> HTTP/1.1] is answered by a response whose status
    line starts with [HTTP/1.1 200] and whose body, the text after the
    blank line that ends the headers, is B.  (B need not be non-empty.) *)
Theorem C2_registered_path_200 self w sock data path h B w' :
  recv_result sock = RecvData data ->
  request_line data = "GET " +:+ path +:+ " HTTP/1.1" ->
  count_char " " path = O ->
  routes self !! path = Some h ->
  h w = (HReturn (Some B), w') ->
  exists response,
    sent (trace_of (serve self w sock)) = [encode response]
    /\ startswith (status_line response) "HTTP/1.1 200" = true
    /\ body_of response = B.
Proof.
  intros Hrecv Hline Hpath Hsome Hcall.
  pose proof (parts_of_get _ _ Hline Hpath) as Hparts.
  assert (Hlen : (2 <= length (parts data))%nat) by (rewrite Hparts; simpl; lia).
  assert (Hitem : item (parts data) 1 = path) by now rewrite Hparts.
  pose proof (received_nonempty _ Hlen) as Hne.
  destruct data as [|b d]; [congruence|].
  destruct (serve_data_observed self w sock b d Hrecv) as (Hs & _).
  rewrite <- Hitem in Hsome.
  rewrite (answer_call _ _ _ _ Hlen Hsome) in Hs; cbv zeta in Hs.
  rewrite Hcall in Hs; cbn -[encode _build_response] in Hs.
  exists (_build_response 200 B default_content_type).
  split; [exact Hs|]. split; reflexivity.
Qed.

(** The answer depends on the tokens after the first only. *)
Lemma answer_method self w d1 d2 m1 m2 rest :
  parts d1 = m1 :: rest -> parts d2 = m2 :: rest ->
  answer self d1 w = answer self d2 w.
Proof. intros H1 H2. unfold answer. now rewrite H1, H2. Qed.

(** C9: two received requests whose request lines differ in the method
    token only are answered alike: the same bytes are sent, after the
    same route lookups and handler calls, and the world is left the
    same. *)
Theorem C9_method_not_inspected self w sock1 sock2 d1 d2 m1 m2 rest :
  recv_result sock1 = RecvData d1 ->
  recv_result sock2 = RecvData d2 ->
  d1 <> [] ->
  d2 <> [] ->
  parts d1 = m1 :: rest ->
  parts d2 = m2 :: rest ->
  sent (trace_of (serve self w sock1)) = sent (trace_of (serve self w sock2))
  /\ lookups (trace_of (serve self w sock1)) = lookups (trace_of (serve self w sock2))
  /\ calls (trace_of (serve self w sock1)) = calls (trace_of (serve self w sock2))
  /\ world_of (serve self w sock1) = world_of (serve self w sock2).
Proof.
  intros Hr1 Hr2 Hn1 Hn2 Hp1 Hp2.
  destruct d1 as [|b1 d1]; [congruence|]. destruct d2 as [|b2 d2]; [congruence|].
  destruct (serve_data_observed self w sock1 _ _ Hr1) as (Hs1 & _ & Hl1 & Hc1 & Hw1 & _).
  destruct (serve_data_observed self w sock2 _ _ Hr2) as (Hs2 & _ & Hl2 & Hc2 & Hw2 & _).
  rewrite Hs1, Hs2, Hl1, Hl2, Hc1, Hc2, Hw1, Hw2.
  now rewrite (answer_method self w _ _ _ _ _ Hp1 Hp2).
Qed.

(** With two tokens or more the response is never the 400 one. *)
Lemma answer_not_bad self data w :
  (2 <= length (parts data))%nat -> (answer self data w).1.1 <> bad_request.
Proof.
  intros Hlen. unfold answer. apply Nat.ltb_ge in Hlen as ->. cbv zeta.
  destruct (routes self !! _) as [h|]; [|discriminate].
  destruct (h w) as [[[b|]|e] w']; cbn -[_build_response]; discriminate.
Qed.

(** C10: the 400 response is sent exactly when the request line has no
    space in it; and a request line that is a method followed by one
    space splits into the method and the empty path, so that the empty
    path is looked up and the response is not the 400 one: it is the 404
    one when the empty path is not registered. *)
Theorem C10_400_iff_no_space self w sock data :
  recv_result sock = RecvData data ->
  data <> [] ->
  let run := serve self w sock in
  (sent (trace_of run) = [encode bad_request]
   <-> count_char " " (request_line data) = O)
  /\ forall m, count_char " " m = O -> request_line data = m +:+ " " ->
       parts data = [m; ""]
       /\ lookups (trace_of run) = [""]
       /\ sent (trace_of run) <> [encode bad_request]
       /\ (routes self !! "" = None -> sent (trace_of run) = [encode not_found]).
Proof.
  intros Hrecv Hne run; subst run.
  destruct data as [|b d]; [congruence|].
  destruct (serve_data_observed self w sock b d Hrecv) as (Hs & _ & Hl & _).
  pose proof (length_split_space (request_line (b :: d))) as Hcount.
  fold (parts (b :: d)) in Hcount.
  split.
  - rewrite Hs. split.
    + intros H.
      destruct (count_char " " (request_line (b :: d))) as [|n] eqn:E; [reflexivity|].
      exfalso. apply (answer_not_bad self (b :: d) w); [lia|].
      apply encode_inj. congruence.
    + intros H. rewrite answer_bad; [reflexivity|lia].
  - intros m Hm Hline.
    assert (Hparts : parts (b :: d) = [m; ""]).
    { unfold parts. rewrite Hline.
      change (m +:+ " ") with (m +:+ " " +:+ "").
      now rewrite split_space_app. }
    assert (Hlen : (2 <= length (parts (b :: d)))%nat) by (rewrite Hparts; simpl; lia).
    split; [exact Hparts|].
    assert (Hl' : lookups (answer self (b :: d) w).1.2 = [""]).
    { unfold answer. apply Nat.ltb_ge in Hlen as ->. cbv zeta.
      rewrite Hparts. cbn [item nth].
      destruct (routes self !! "") as [h|]; [|reflexivity].
      now destruct (h w) as [[[x|]|e] w']. }
    split; [congruence|]. split.
    + rewrite Hs. intros H. apply (answer_not_bad self (b :: d) w Hlen).
      apply encode_inj. congruence.
    + intros Hnone. rewrite Hs, answer_missing; [reflexivity|exact Hlen|].
      now rewrite Hparts.
Qed.

End Routing.

(** ** [main.py] against [server.py] *)

Section Variants.

Context {World : Type}.

Import GhuServer.

Implicit Types (self : GhuServer World) (w : World) (sock : socket).

Lemma main_tail_quiet sock : sent (main_tail sock) = [] /\ closes (main_tail sock) = 1%nat.
Proof.
  unfold main_tail. destruct (sendall_result sock) as [e|]; [|now split].
  now destruct (main_on_exception_log e) as (l & m & x & ->).
Qed.

(** [main.py] closes the socket once and leaves nothing in the task. *)
Lemma main_closed_once w sock :
  closes (trace_of (Main.serve w sock)) = 1%nat
  /\ exception_of (Main.serve w sock) = None.
Proof.
  destruct (main_tail_quiet sock) as [_ Hc].
  destruct (recv_result sock) as [[|b d]|e] eqn:Hrecv.
  - now rewrite (main_serve_empty _ _ Hrecv).
  - now rewrite (main_serve_data _ _ _ _ Hrecv).
  - rewrite (main_serve_raise _ _ _ Hrecv).
    destruct (is_TimeoutError e); [now split|].
    now destruct (main_on_exception_log e) as (l & m & x & ->).
Qed.

(** C8 (as amended): on every input both variants close the socket
    exactly once and leave no exception in the task, and both send
    nothing when the read returns no bytes.  For a request that was
    received, the fixed-route variant sends its one 200 response
    whatever the request line is, and the route-table variant sends a
    200 response with the same body when the path token is registered
    with a handler that returns that body.  The two responses have the
    same status line and the same body; the fixed one is what the
    response builder of [server.py] returns for the content type
    [text/html], the other carries [text/html; charset=utf-8]. *)
Theorem C8_fixed_route_and_route_table self w sock :
  let fixed := Main.serve w sock in
  let table := serve self w sock in
  (closes (trace_of fixed) = 1%nat /\ closes (trace_of table) = 1%nat
   /\ exception_of fixed = None /\ exception_of table = None)
  /\ (recv_result sock = RecvData [] ->
      sent (trace_of fixed) = [] /\ sent (trace_of table) = [])
  /\ (forall data, recv_result sock = RecvData data -> data <> [] ->
      sent (trace_of fixed) = [encode Main.response])
  /\ (forall data h w',
        recv_result sock = RecvData data ->
        (2 <= length (parts data))%nat ->
        routes self !! item (parts data) 1 = Some h ->
        h w = (HReturn (Some Main.response_body), w') ->
        sent (trace_of table)
        = [encode (_build_response 200 Main.response_body default_content_type)])
  /\ Main.response = _build_response 200 Main.response_body "text/html"
  /\ status_line Main.response
     = status_line (_build_response 200 Main.response_body default_content_type)
  /\ body_of Main.response
     = body_of (_build_response 200 Main.response_body default_content_type).
Proof.
  intros fixed table; subst fixed table.
  destruct (main_closed_once w sock) as [Hmc Hme].
  destruct (table_closed_once self w sock) as [Hsc Hse].
  split; [now repeat split|].
  split.
  { intros Hrecv.
    now rewrite (main_serve_empty _ _ Hrecv), (serve_empty _ _ _ Hrecv). }
  split.
  { intros [|b d] Hrecv Hne; [congruence|].
    rewrite (main_serve_data _ _ _ _ Hrecv).
    destruct (main_tail_quiet sock) as [Hq _].
    unfold trace_of; cbn -[encode Main.response]. now rewrite Hq. }
  split.
  { intros data h w' Hrecv Hlen Hsome Hcall.
    pose proof (received_nonempty _ Hlen) as Hne.
    destruct data as [|b d]; [congruence|].
    destruct (serve_data_observed self w sock b d Hrecv) as (Hs & _).
    rewrite (answer_call _ _ _ _ Hlen Hsome) in Hs; cbv zeta in Hs.
    now rewrite Hcall in Hs. }
  now repeat split.
Qed.

End Variants.

(** ** The claims on concrete connections *)

Section Examples.

Import GhuServer.

(** C1 as stated fails on a connection whose read times out: the socket
    is closed once, but no response is sent. *)
Lemma C1_timeout_sends_no_response :
  let run := serve server with_index idle in
  sent (trace_of run) = []
  /\ closes (trace_of run) = 1%nat
  /\ ~ (length (sent (trace_of run)) = 1%nat /\ closes (trace_of run) = 1%nat).
Proof. vm_compute. repeat split. intros [H _]; discriminate. Qed.

(** C2 as stated fails for a registered path with a space in it: the
    request line [GET /a b HTTP/1.1] is cut into four tokens, the path
    looked up is [/a], and the answer is 404. *)
Lemma C2_path_with_space_404 :
  let self := route server "/a b" hello in
  let data := encode (request_for "GET" "/a b") in
  let run := serve self with_index (Socket (RecvData data) None) in
  routes self !! "/a b" = Some hello
  /\ hello with_index
     = (HReturn (Some "<h1>Hello World!</h1><p>HEHEHE It's works!!!</p>"), with_index)
  /\ request_line data = "GET /a b HTTP/1.1"
  /\ lookups (trace_of run) = ["/a"]
  /\ sent (trace_of run) = [encode not_found]
  /\ startswith (status_line not_found) "HTTP/1.1 200" = false
  /\ body_of not_found <> "<h1>Hello World!</h1><p>HEHEHE It's works!!!</p>".
Proof. vm_compute. repeat split. discriminate. Qed.

Lemma C2_witness :
  exists response,
    sent (trace_of (serve server with_index (request (request_for "GET" "/hello"))))
    = [encode response]
    /\ startswith (status_line response) "HTTP/1.1 200" = true
    /\ body_of response = "<h1>Hello World!</h1><p>HEHEHE It's works!!!</p>".
Proof.
  apply (C2_registered_path_200 server with_index
           (request (request_for "GET" "/hello"))
           (encode (request_for "GET" "/hello")) "/hello" hello _ with_index);
    reflexivity.
Defined.

Lemma C4_witness :
  sent (trace_of (serve server with_index (request (request_for "GET" "/nothing"))))
  = [encode not_found]
  /\ sent (trace_of (serve (route server "/quiet" silent) with_index
                           (request (request_for "GET" "/quiet"))))
     = [encode not_found].
Proof.
  split.
  - apply (C4_missing_or_empty_route_404 server with_index _
             (encode (request_for "GET" "/nothing")));
      [reflexivity | vm_compute; lia | left; reflexivity].
  - apply (C4_missing_or_empty_route_404 (route server "/quiet" silent) with_index _
             (encode (request_for "GET" "/quiet")));
      [reflexivity | vm_compute; lia |].
    right. exists silent, with_index. split; reflexivity.
Defined.

Lemma C5_witness :
  let run := serve server with_index (request ("GET" +:+ CRLF +:+ CRLF)) in
  sent (trace_of run) = [encode bad_request]
  /\ status_line bad_request = "HTTP/1.1 400 Bad Request"
  /\ body_of bad_request = "<h1>400 Bad Request</h1>"
  /\ lookups (trace_of run) = []
  /\ calls (trace_of run) = O
  /\ world_of run = with_index.
Proof.
  apply (C5_short_request_line_400 server with_index _
           (encode ("GET" +:+ CRLF +:+ CRLF)));
    [reflexivity | discriminate | vm_compute; lia].
Defined.

(** The route [/] with no [index.html] to read: [render_template]
    raises [FileNotFoundError]. *)
Lemma C6_witness :
  let run := serve server no_files (request (request_for "GET" "/")) in
  sent (trace_of run) = [encode server_error]
  /\ exception_of run = None
  /\ (run_server server no_files
        [request (request_for "GET" "/"); request (request_for "GET" "/hello")]).1
     = [(trace_of run, None);
        (trace_of (serve server no_files (request (request_for "GET" "/hello"))), None)].
Proof.
  destruct (C6_handler_exception_500 server no_files
              (request (request_for "GET" "/"))
              (encode (request_for "GET" "/")) index
              (Exn FileNotFoundError "Template não encontrado: 'index.html'") no_files)
    as (Hs & _ & _ & _ & He & Hloop);
    [reflexivity | vm_compute; lia | reflexivity | reflexivity |].
  split; [exact Hs|]. split; [exact He|].
  destruct (Hloop [request (request_for "GET" "/hello")]) as [-> _]. reflexivity.
Defined.

Lemma C9_witness :
  sent (trace_of (serve server with_index (request (request_for "GET" "/hello"))))
  = sent (trace_of (serve server with_index (request (request_for "POST" "/hello")))).
Proof.
  apply (C9_method_not_inspected server with_index
           (request (request_for "GET" "/hello")) (request (request_for "POST" "/hello"))
           (encode (request_for "GET" "/hello")) (encode (request_for "POST" "/hello"))
           "GET" "POST" ["/hello"; "HTTP/1.1"]);
    first [reflexivity | discriminate].
Defined.

Lemma C10_witness :
  parts (encode "GET ") = ["GET"; ""]
  /\ sent (trace_of (serve server with_index (request "GET "))) = [encode not_found].
Proof.
  destruct (C10_400_iff_no_space server with_index (request "GET ") (encode "GET "))
    as [_ H]; [reflexivity | discriminate |].
  destruct (H "GET" eq_refl eq_refl) as (Hp & _ & _ & Hn).
  split; [exact Hp | apply Hn; reflexivity].
Defined.

(** C8 as stated fails: for a route table that answers [/] with the
    body of [main.py], the two variants send different bytes for
    [GET / HTTP/1.1] (the content type differs), for the one-token
    request line [GET] (200 against 400) and when the read times out
    (the fixed-route variant sends its response, the other nothing). *)
Lemma C8_variants_differ :
  sent (trace_of (Main.serve () (request (request_for "GET" "/"))))
  <> sent (trace_of (serve table_of_fixed () (request (request_for "GET" "/"))))
  /\ sent (trace_of (Main.serve () (request ("GET" +:+ CRLF +:+ CRLF))))
     <> sent (trace_of (serve table_of_fixed () (request ("GET" +:+ CRLF +:+ CRLF))))
  /\ sent (trace_of (Main.serve () idle)) = [encode Main.response]
  /\ sent (trace_of (serve table_of_fixed () idle)) = [].
Proof.
  repeat split; try (vm_compute; discriminate); reflexivity.
Qed.

Lemma C8_witness :
  sent (trace_of (Main.serve () (request (request_for "GET" "/"))))
  = [encode (_build_response 200 Main.response_body "text/html")]
  /\ sent (trace_of (serve table_of_fixed () (request (request_for "GET" "/"))))
     = [encode (_build_response 200 Main.response_body default_content_type)].
Proof.
  destruct (C8_fixed_route_and_route_table table_of_fixed ()
              (request (request_for "GET" "/")))
    as (_ & _ & Hfixed & Htable & Heq & _).
  split.
  - rewrite <- Heq. apply (Hfixed (encode (request_for "GET" "/"))); [reflexivity|discriminate].
  - apply (Htable (encode (request_for "GET" "/")) fixed_body ());
      [reflexivity | vm_compute; lia | reflexivity | reflexivity].
Defined.

End Examples.

(** ** Registering routes *)

Section Registration.

Context {World : Type}.

Import GhuServer.

Implicit Types (self : GhuServer World) (w : World) (sock : socket).

Lemma routes_route self path f path' :
  routes (route self path f) !! path'
  = if decide (path = path') then Some f else routes self !! path'.
Proof. unfold route, handler; cbn. apply lookup_insert. Qed.

(** Registration: the handler registered last for a path is the one
    looked up, an earlier registration for the same path is forgotten,
    registrations for different paths commute, and the configuration is
    untouched. *)
Theorem route_registration self path f g :
  routes (route self path f) !! path = Some f
  /\ route (route self path f) path g = route self path g
  /\ (forall path' f', path <> path' ->
        route (route self path f) path' f' = route (route self path' f') path f)
  /\ host (route self path f) = host self
  /\ port (route self path f) = port self
  /\ request_buffer_size (route self path f) = request_buffer_size self
  /\ request_timeout (route self path f) = request_timeout self
  /\ template_folder (route self path f) = template_folder self.
Proof.
  split; [unfold route, handler; cbn; apply lookup_insert_eq|].
  split; [unfold route, handler; cbn; f_equal; apply insert_insert_eq|].
  split; [|now repeat split].
  intros path' f' Hne. unfold route, handler; cbn; f_equal.
  now apply insert_insert_ne.
Qed.

Lemma answer_route_other self path f data w :
  item (parts data) 1 <> path ->
  answer (route self path f) data w = answer self data w.
Proof.
  intros Hne. unfold answer. destruct (length _ <? 2)%nat; [reflexivity|]. cbv zeta.
  rewrite routes_route. destruct (decide _) as [E|_]; [congruence|reflexivity].
Qed.

(** Registering a handler for [path] changes nothing for a connection
    whose request has another path token: the whole run is the same. *)
Theorem route_other_paths self path f w sock :
  (forall data, recv_result sock = RecvData data -> item (parts data) 1 <> path) ->
  serve (route self path f) w sock = serve self w sock.
Proof.
  intros Hother.
  destruct (recv_result sock) as [[|b d]|e] eqn:Hrecv.
  - now rewrite !(serve_empty _ _ _ Hrecv).
  - rewrite !(serve_data _ _ _ _ _ Hrecv).
    now rewrite (answer_route_other _ _ _ _ _ (Hother _ eq_refl)).
  - now rewrite !(serve_raise _ _ _ _ Hrecv).
Qed.

End Registration.

(** ** From the bytes of a request to its answer *)

Section Bytes.

Context {World : Type}.

Import GhuServer.

Implicit Types (self : GhuServer World) (w : World) (sock : socket).

Lemma encode_app a b : encode (a +:+ b) = (encode a ++ encode b)%list.
Proof.
  unfold encode, list_byte_of_string.
  induction a as [|c a IH]; [reflexivity|].
  rewrite append_cons; cbn [list_ascii_of_string map app]. now rewrite IH.
Qed.

Lemma ascii_only_app a b : ascii_only (a +:+ b) = (ascii_only a && ascii_only b)%bool.
Proof. unfold ascii_only. now rewrite encode_app, forallb_app. Qed.

(** ASCII bytes decode to themselves. *)
Lemma decode_bytes_ascii (bs : bytes) :
  forallb (between 0 127) bs = true -> decode_bytes bs = bs.
Proof.
  induction bs as [|b bs IH]; [reflexivity|].
  cbn [forallb]. intros [Hb Hbs]%andb_prop.
  cbn [decode_bytes]. now rewrite Hb, (IH Hbs).
Qed.

Lemma decode_ascii s : ascii_only s = true -> decode (encode s) = s.
Proof.
  intros H. unfold decode. rewrite (decode_bytes_ascii _ H).
  apply string_of_list_byte_of_string.
Qed.

(** The request line and the tokens of [<method> <path> HTTP/1.1]
    followed by a blank line. *)
Lemma request_line_for method path :
  ascii_only method = true -> ascii_only path = true ->
  count_char CR method = O -> count_char CR path = O ->
  request_line (encode (request_for method path)) = method +:+ " " +:+ path +:+ " HTTP/1.1".
Proof.
  intros Am Ap Cm Cp. unfold request_line.
  rewrite decode_ascii.
  - replace (request_for method path)
      with ((method +:+ " " +:+ path +:+ " HTTP/1.1") +:+ CRLF +:+ CRLF)
      by (unfold request_for; now rewrite !append_assoc).
    rewrite split_CRLF_app; [reflexivity|].
    rewrite !count_char_app, Cm, Cp. reflexivity.
  - unfold request_for. rewrite !ascii_only_app, Am, Ap. reflexivity.
Qed.

Lemma parts_for method path :
  ascii_only method = true -> ascii_only path = true ->
  count_char CR method = O -> count_char CR path = O ->
  count_char " " method = O -> count_char " " path = O ->
  parts (encode (request_for method path)) = [method; path; "HTTP/1.1"].
Proof.
  intros Am Ap Cm Cp Sm Sp. unfold parts. rewrite request_line_for by assumption.
  change (method +:+ " " +:+ path +:+ " HTTP/1.1")
    with (method +:+ " " +:+ (path +:+ " " +:+ "HTTP/1.1")).
  rewrite split_space_app by assumption.
  rewrite split_space_app by assumption.
  now rewrite split_space_last.
Qed.

Lemma answer_path self data w :
  (2 <= length (parts data))%nat ->
  (answer self data w).1.1 = response_for self (item (parts data) 1) w
  /\ (answer self data w).2 = world_after self (item (parts data) 1) w
  /\ lookups (answer self data w).1.2 = [item (parts data) 1].
Proof.
  intros Hlen. unfold answer, response_for, world_after, handler.
  apply Nat.ltb_ge in Hlen as ->. cbv zeta.
  match goal with
  | |- context [@lookup ?K ?V ?M ?L ?k ?m] => destruct (@lookup K V M L k m) as [h|]
  end; [|now repeat split].
  now destruct (h w) as [[[body|]|e] w'].
Qed.

(** The answer to a well-formed request, from its bytes. *)
Lemma answer_request_for self w method path :
  ascii_only method = true -> ascii_only path = true ->
  count_char CR method = O -> count_char CR path = O ->
  count_char " " method = O -> count_char " " path = O ->
  exists b d,
    encode (request_for method path) = b :: d
    /\ (answer self (b :: d) w).1.1 = response_for self path w
    /\ (answer self (b :: d) w).2 = world_after self path w
    /\ lookups (answer self (b :: d) w).1.2 = [path].
Proof.
  intros Am Ap Cm Cp Sm Sp.
  pose proof (parts_for _ _ Am Ap Cm Cp Sm Sp) as Hparts.
  assert (Hlen : (2 <= length (parts (encode (request_for method path))))%nat)
    by (rewrite Hparts; simpl; lia).
  pose proof (received_nonempty _ Hlen) as Hne.
  destruct (encode (request_for method path)) as [|b d] eqn:Hdata; [congruence|].
  exists b, d. split; [reflexivity|].
  destruct (answer_path self (b :: d) w Hlen) as (Hr & Hwa & Hlk).
  rewrite Hparts in Hr, Hwa, Hlk; cbn [item nth] in Hr, Hwa, Hlk.
  now repeat split.
Qed.

(** A request [<method> <path> HTTP/1.1] in ASCII, with neither space
    nor carriage return inside the method and the path, is answered by
    the handler registered for [path], whatever the method: 200 with the
    body it returns, 404 when it returns [None] or when there is no such
    handler, 500 when it raises; [path] is the one key looked up and the
    world is the one the handler leaves. *)
Theorem request_bytes_to_response self w sock method path :
  recv_result sock = RecvData (encode (request_for method path)) ->
  ascii_only method = true -> ascii_only path = true ->
  count_char CR method = O -> count_char CR path = O ->
  count_char " " method = O -> count_char " " path = O ->
  let run := serve self w sock in
  sent (trace_of run) = [encode (response_for self path w)]
  /\ lookups (trace_of run) = [path]
  /\ world_of run = world_after self path w.
Proof.
  intros Hrecv Am Ap Cm Cp Sm Sp run; subst run.
  destruct (answer_request_for self w method path Am Ap Cm Cp Sm Sp)
    as (b & d & Hdata & Hr & Hwa & Hlk).
  rewrite Hdata in Hrecv.
  destruct (serve_data_observed self w sock b d Hrecv) as (Hs & _ & Hl & _ & Hw & _).
  rewrite Hs, Hl, Hw. now rewrite Hr, Hwa, Hlk.
Qed.

End Bytes.

(** ** The deployment of the [__main__] block *)

Section Deployment.

Import GhuServer.

(** Looking up a path in a table just extended by [route]. *)
Ltac lookup_route :=
  match goal with
  | |- context [@lookup _ _ _ _ ?q (routes (route ?s ?p ?f))] =>
    let H := fresh in
    pose proof (routes_route s p f q) as H; unfold handler in H |- *; rewrite H; clear H
  end.

Lemma response_for_server fs path : response_for server path fs = deployed fs path.
Proof.
  unfold response_for, deployed, server.
  lookup_route.
  destruct (String.eqb_spec path "/hello") as [->|Hhello].
  { now rewrite decide_True. }
  rewrite decide_False by congruence.
  lookup_route.
  destruct (String.eqb_spec path "/") as [->|Hroot].
  - rewrite decide_True by reflexivity.
    unfold index, render_template.
  change (os_path_join _ _) with "templates/index.html"; cbv zeta.
    now destruct (fs !! "templates/index.html").
  - rewrite decide_False by congruence. reflexivity.
Qed.

Lemma world_after_server fs path : world_after server path fs = fs.
Proof.
  unfold world_after, server.
  lookup_route. destruct (decide _); [reflexivity|].
  lookup_route. destruct (decide _); [|reflexivity].
  unfold index, render_template.
  change (os_path_join _ _) with "templates/index.html"; cbv zeta.
  now destruct (fs !! "templates/index.html").
Qed.

(** The reference deployment, whatever the method: [/hello] is answered
    200 with its inline body; [/] is answered 200 with the contents of
    [templates/index.html] when that file can be read and 500 when it is
    missing; every other path is answered 404.  No request changes the
    files. *)
Theorem deployment_answers fs sock method path :
  recv_result sock = RecvData (encode (request_for method path)) ->
  ascii_only method = true -> ascii_only path = true ->
  count_char CR method = O -> count_char CR path = O ->
  count_char " " method = O -> count_char " " path = O ->
  sent (trace_of (serve server fs sock)) = [encode (deployed fs path)]
  /\ world_of (serve server fs sock) = fs.
Proof.
  intros Hrecv Am Ap Cm Cp Sm Sp.
  destruct (answer_request_for server fs method path Am Ap Cm Cp Sm Sp)
    as (b & d & Hdata & Hr & Hwa & _).
  rewrite Hdata in Hrecv.
  destruct (serve_data_observed server fs sock b d Hrecv) as (Hs & _ & _ & _ & Hw & _).
  now rewrite Hs, Hw, Hr, Hwa, response_for_server, world_after_server.
Qed.

End Deployment.

(** ** Reading a response back *)

Section Framing.

Context {World : Type}.

Import GhuServer.

Implicit Types (self : GhuServer World) (w : World) (sock : socket).

(** A character other than CR does not start the blank line. *)
Lemma body_of_skip_char c r : Ascii.eqb CR c = false -> body_of (String c r) = body_of r.
Proof.
  intros Hc. destruct r as [|c2 [|c3 [|c4 r]]]; try reflexivity.
  cbn -[Ascii.eqb]. now rewrite Ascii.eqb_sym, Hc.
Qed.

Lemma body_of_skip a rest : count_char CR a = O -> body_of (a +:+ rest) = body_of rest.
Proof.
  induction a as [|c a IH]; [reflexivity|].
  intros H. rewrite append_cons. cbn -[Ascii.eqb] in H.
  destruct (Ascii.eqb CR c) eqn:Hc; [discriminate|].
  rewrite body_of_skip_char by exact Hc. exact (IH H).
Qed.

(** A line end followed by a non-empty line is not the blank line. *)
Lemma body_of_line_end c r :
  Ascii.eqb CR c = false -> body_of (CRLF +:+ String c r) = body_of (String c r).
Proof.
  intros Hc. change (CRLF +:+ String c r) with (String CR (String LF (String c r))).
  destruct r as [|c4 r].
  - reflexivity.
  - change (body_of (String CR (String LF (String c (String c4 r)))))
      with (if (Ascii.eqb CR CR && Ascii.eqb LF LF && Ascii.eqb c CR && Ascii.eqb c4 LF)%bool
            then r else body_of (String LF (String c (String c4 r)))).
    rewrite (Ascii.eqb_sym c CR), Hc.
    change (Ascii.eqb CR CR) with true. change (Ascii.eqb LF LF) with true.
    cbn [andb]. now apply body_of_skip_char.
Qed.

Lemma body_of_framed code body content_type :
  count_char CR content_type = O -> body_of (framed code body content_type) = body.
Proof.
  intros Hct. unfold framed.
  replace ("HTTP/1.1 " +:+ str_of_int code +:+ " " +:+ reason code +:+ CRLF
           +:+ "Content-Type: " +:+ content_type +:+ CRLF
           +:+ "Connection: close" +:+ CRLF +:+ CRLF +:+ body)
    with (("HTTP/1.1 " +:+ str_of_int code +:+ " " +:+ reason code)
          +:+ CRLF +:+ String "C" ("ontent-Type: " +:+ content_type +:+ CRLF
          +:+ "Connection: close" +:+ CRLF +:+ CRLF +:+ body))
    by (now rewrite !append_assoc).
  rewrite body_of_skip
    by (rewrite !count_char_app, no_CR_int, no_CR_reason; reflexivity).
  rewrite body_of_line_end by reflexivity.
  replace (String "C" ("ontent-Type: " +:+ content_type +:+ CRLF
           +:+ "Connection: close" +:+ CRLF +:+ CRLF +:+ body))
    with (("Content-Type: " +:+ content_type)
          +:+ CRLF +:+ String "C" ("onnection: close" +:+ CRLF +:+ CRLF +:+ body))
    by (now rewrite !append_assoc).
  rewrite body_of_skip by (rewrite count_char_app, Hct; reflexivity).
  rewrite body_of_line_end by reflexivity.
  reflexivity.
Qed.

(** Building a response and reading it back: for every status code,
    body and content type without carriage return, the status line, the
    header lines and the body of the built response are the ones it was
    built from, whatever the body contains (blank lines included). *)
Theorem build_response_read_back code body content_type :
  count_char CR content_type = O ->
  status_line (_build_response code body content_type)
  = "HTTP/1.1 " +:+ str_of_int code +:+ " " +:+ reason code
  /\ header_lines (_build_response code body content_type)
     = ["Content-Type: " +:+ content_type; "Connection: close"]
  /\ body_of (_build_response code body content_type) = body.
Proof.
  intros Hct. rewrite build_response_framed.
  split; [unfold status_line; now rewrite split_framed|].
  split; [|now apply body_of_framed].
  unfold header_lines. rewrite split_framed. cbn [tl].
  rewrite <- (append_assoc "Content-Type: " content_type).
  rewrite split_CRLF_app by (rewrite count_char_app, Hct; reflexivity).
  reflexivity.
Qed.

(** Every response that [handle_client] sends is one of four kinds. *)
Lemma answer_kinds self data w :
  let r := (answer self data w).1.1 in
  r = bad_request \/ r = not_found \/ r = server_error
  \/ exists body, r = _build_response 200 body default_content_type.
Proof.
  unfold answer. destruct (length _ <? 2)%nat; [now left|]. cbv zeta.
  match goal with
  | |- context [@lookup ?K ?V ?M ?L ?k ?m] => destruct (@lookup K V M L k m) as [h|]
  end; [|now right; left].
  destruct (h w) as [[[body|]|e] w']; cbn; eauto.
Qed.

(** Whatever request is received, the one response sent has one of the
    four status lines 200, 400, 404 and 500 and exactly the two headers
    [Content-Type: text/html; charset=utf-8] and [Connection: close]. *)
Theorem response_well_formed self w sock b d :
  recv_result sock = RecvData (b :: d) ->
  exists response,
    sent (trace_of (serve self w sock)) = [encode response]
    /\ In (status_line response) status_lines
    /\ header_lines response
       = ["Content-Type: text/html; charset=utf-8"; "Connection: close"].
Proof.
  intros Hrecv.
  destruct (serve_data_observed self w sock b d Hrecv) as (Hs & _).
  exists (answer self (b :: d) w).1.1. split; [exact Hs|].
  destruct (answer_kinds self (b :: d) w) as [->|[->|[->|[body ->]]]];
    (split; [cbn; tauto|reflexivity]).
Qed.

End Framing.

(** ** Failures of the socket and the order of the actions *)

Section Failures.

Context {World : Type}.

Import GhuServer.

Implicit Types (self : GhuServer World) (w : World) (sock : socket).

(** An empty read (the peer closed at once): either server logs one
    warning and closes; nothing is sent, no route is looked up, no
    handler is called and the world stays as it was. *)
Theorem empty_read_is_dropped self w sock :
  recv_result sock = RecvData [] ->
  serve self w sock
  = ([EvLog WARNING "Recebida uma requisição vazia." false; EvClose], w, None)
  /\ Main.serve w sock
     = ([EvLog WARNING "Empty request received." false; EvClose], w, None).
Proof.
  intros Hrecv. split; [now apply serve_empty | now apply main_serve_empty].
Qed.

(** A read that raises anything but a timeout (a reset by the peer, any
    other error): nothing is sent, nothing is looked up or called, the
    world stays as it was, nothing escapes the handler, and exactly one
    record is logged: the reset warning for [ConnectionResetError], an
    error with the text of the exception otherwise. *)
Theorem read_failure_is_logged self w sock e :
  recv_result sock = RecvRaise e ->
  is_TimeoutError e = false ->
  let run := serve self w sock in
  sent (trace_of run) = []
  /\ lookups (trace_of run) = []
  /\ calls (trace_of run) = O
  /\ closes (trace_of run) = 1%nat
  /\ world_of run = w
  /\ exception_of run = None
  /\ logged (trace_of run)
     = [if is_ConnectionResetError e
        then (WARNING, "Conexão resetada pelo cliente.")
        else (ERROR, "Erro inesperado ao lidar com o cliente: " +:+ str_of_exn e)].
Proof.
  intros Hrecv Ht run; subst run.
  rewrite (serve_raise _ _ _ _ Hrecv), Ht. unfold on_exception. rewrite Ht.
  now destruct (is_ConnectionResetError e).
Qed.

(** A write that raises: the response was handed to the socket once,
    the exception is logged by the clause for its class and goes no
    further, the socket is closed after it, and what the handler did to
    the world stays done. *)
Theorem write_failure_is_logged self w sock b d e :
  recv_result sock = RecvData (b :: d) ->
  sendall_result sock = Some e ->
  let run := serve self w sock in
  let ans := answer self (b :: d) w in
  trace_of run
  = ((EvLog INFO ("Request:" +:+ NL +:+ decode (b :: d)) false :: ans.1.2)
     ++ [EvSend (encode ans.1.1); on_exception e; EvClose])%list
  /\ world_of run = ans.2
  /\ exception_of run = None.
Proof.
  intros Hrecv Hsend run ans; subst run ans.
  rewrite (serve_data _ _ _ _ _ Hrecv), Hsend.
  now destruct (answer self (b :: d) w) as [[r evs] w'].
Qed.

(** The whole run of a request whose handler raises, when the write
    succeeds: the request is logged, the path is looked up, the handler
    is called, its failure is logged at level ERROR with the path, the
    text of the exception and the traceback, the 500 response is sent
    and the socket is closed, in this order. *)
Theorem handler_failure_run self w sock b d h e w' :
  recv_result sock = RecvData (b :: d) ->
  sendall_result sock = None ->
  (2 <= length (parts (b :: d)))%nat ->
  routes self !! item (parts (b :: d)) 1 = Some h ->
  h w = (HRaise e, w') ->
  serve self w sock
  = ([EvLog INFO ("Request:" +:+ NL +:+ decode (b :: d)) false;
      EvLookup (item (parts (b :: d)) 1);
      EvCall;
      EvLog ERROR ("Erro na rota '" +:+ item (parts (b :: d)) 1 +:+ "': " +:+ str_of_exn e)
            true;
      EvSend (encode server_error);
      EvClose], w', None).
Proof.
  intros Hrecv Hsend Hlen Hsome Hcall.
  rewrite (serve_data _ _ _ _ _ Hrecv), Hsend.
  rewrite (answer_call _ _ _ _ Hlen Hsome); cbv zeta. now rewrite Hcall.
Qed.

(** Closing is the last thing either server does with a connection:
    every run ends with the close, and there is no close before it. *)
Theorem close_comes_last self w sock :
  (exists t, trace_of (serve self w sock) = (t ++ [EvClose])%list /\ closes t = O)
  /\ (exists t, trace_of (Main.serve w sock) = (t ++ [EvClose])%list /\ closes t = O).
Proof.
  split.
  - destruct (recv_result sock) as [[|b d]|e] eqn:Hrecv.
    + rewrite (serve_empty _ _ _ Hrecv). now eexists [_].
    + rewrite (serve_data _ _ _ _ _ Hrecv).
      destruct (answer_quiet self (b :: d) w) as [_ Hc].
      destruct (answer self (b :: d) w) as [[r evs] w']; cbn in Hc.
      unfold trace_of; cbn [fst].
      destruct (sendall_result sock) as [e|].
      * destruct (on_exception_log e) as (l & m & x & ->).
        exists (EvLog INFO ("Request:" +:+ NL +:+ decode (b :: d)) false
                  :: evs ++ [EvSend (encode r); EvLog l m x])%list.
        split; [cbn; now rewrite <- app_assoc|].
        cbn. rewrite closes_app, Hc. reflexivity.
      * exists (EvLog INFO ("Request:" +:+ NL +:+ decode (b :: d)) false
                  :: evs ++ [EvSend (encode r)])%list.
        split; [cbn; now rewrite <- app_assoc|].
        cbn. rewrite closes_app, Hc. reflexivity.
    + rewrite (serve_raise _ _ _ _ Hrecv).
      destruct (on_exception_log (if is_TimeoutError e then unbound_local "request_data" else e))
        as (l & m & x & ->).
      now eexists [_].
  - assert (Htail : exists t, main_tail sock = (t ++ [EvClose])%list /\ closes t = O).
    { unfold main_tail. destruct (sendall_result sock) as [e|]; [|now exists []].
      destruct (main_on_exception_log e) as (l & m & x & ->). now eexists [_]. }
    destruct Htail as (t & Ht & Hc).
    destruct (recv_result sock) as [[|b d]|e] eqn:Hrecv.
    + rewrite (main_serve_empty _ _ Hrecv). now eexists [_].
    + rewrite (main_serve_data _ _ _ _ Hrecv). unfold trace_of; cbn [fst]. rewrite Ht.
      now eexists (_ :: _ :: t).
    + rewrite (main_serve_raise _ _ _ Hrecv). unfold trace_of; cbn [fst].
      destruct (is_TimeoutError e).
      * rewrite Ht. now eexists (_ :: t).
      * destruct (main_on_exception_log e) as (l & m & x & ->). now eexists [_].
Qed.

(** [main.py] never touches the world. *)
Lemma main_world w sock : world_of (Main.serve w sock) = w.
Proof.
  destruct (recv_result sock) as [[|b d]|e] eqn:Hrecv.
  - now rewrite (main_serve_empty _ _ Hrecv).
  - now rewrite (main_serve_data _ _ _ _ Hrecv).
  - now rewrite (main_serve_raise _ _ _ Hrecv).
Qed.

(** What [main.py] sends: its one fixed response when at least one byte
    was read, whatever the bytes are, and also when the read timed out;
    nothing when the read returned no bytes or raised anything else.  It
    never touches the world, closes once and lets nothing escape. *)
Theorem main_sends_fixed_response w sock :
  let run := Main.serve w sock in
  sent (trace_of run)
  = match recv_result sock with
    | RecvData [] => []
    | RecvData (_ :: _) => [encode Main.response]
    | RecvRaise e => if is_TimeoutError e then [encode Main.response] else []
    end
  /\ world_of run = w
  /\ closes (trace_of run) = 1%nat
  /\ exception_of run = None.
Proof.
  intros run; subst run.
  destruct (main_closed_once w sock) as [Hc He].
  destruct (main_tail_quiet sock) as [Hq _].
  destruct (recv_result sock) as [[|b d]|e] eqn:Hrecv.
  - rewrite (main_serve_empty _ _ Hrecv) in *. now repeat split.
  - rewrite (main_serve_data _ _ _ _ Hrecv) in *.
    unfold trace_of in *; cbn [fst sent] in *. rewrite Hq. now repeat split.
  - rewrite (main_serve_raise _ _ _ Hrecv) in *.
    unfold trace_of in *; cbn [fst] in *.
    destruct (is_TimeoutError e).
    + cbn [sent]. rewrite Hq. now repeat split.
    + destruct (main_on_exception_log e) as (l & m & x & Hl).
      rewrite Hl in *. now repeat split.
Qed.

End Failures.

(** ** Connections do not disturb one another *)

Section Isolation.

Context {World : Type}.

Import GhuServer.

Implicit Types (self : GhuServer World) (w : World) (sock : socket).

Lemma answer_read_only self data w : read_only self -> (answer self data w).2 = w.
Proof.
  intros Hro. unfold answer. destruct (length _ <? 2)%nat; [reflexivity|]. cbv zeta.
  match goal with
  | |- context [@lookup ?K ?V ?M ?L ?k ?m] =>
    destruct (@lookup K V M L k m) as [h|] eqn:Hr
  end; [|reflexivity].
  pose proof (Hro _ _ w Hr) as Hw.
  destruct (h w) as [[[body|]|e] w']; exact Hw.
Qed.

Lemma serve_read_only self w sock : read_only self -> world_of (serve self w sock) = w.
Proof.
  intros Hro. destruct (recv_result sock) as [[|b d]|e] eqn:Hrecv.
  - now rewrite (serve_empty _ _ _ Hrecv).
  - destruct (serve_data_observed self w sock b d Hrecv) as (_ & _ & _ & _ & Hw & _).
    rewrite Hw. now apply answer_read_only.
  - now rewrite (serve_raise _ _ _ _ Hrecv).
Qed.

(** When no handler changes the world, the connections served by the
    accept loop do not influence one another: each gets the run it would
    get alone, so that arrivals in another order get the same runs in
    that order. *)
Theorem connections_are_independent self w arrivals :
  read_only self ->
  run_server self w arrivals
  = (map (fun sock => (trace_of (serve self w sock), None)) arrivals, w)
  /\ forall arrivals', Permutation arrivals arrivals' ->
       Permutation (run_server self w arrivals).1 (run_server self w arrivals').1.
Proof.
  intros Hro.
  assert (Hmap : forall l, run_server self w l
                 = (map (fun sock => (trace_of (serve self w sock), None)) l, w)).
  { induction l as [|sock rest IH]; [reflexivity|].
    rewrite run_server_cons; cbv zeta.
    rewrite (serve_read_only _ _ _ Hro), IH.
    now destruct (table_closed_once self w sock) as [_ ->]. }
  split; [apply Hmap|].
  intros arrivals' Hperm. rewrite !Hmap. now apply Permutation_map.
Qed.

(** The accept loop of [main.py] likewise, with no condition: every
    connection gets the run it would get alone. *)
Theorem main_connections_are_independent w arrivals :
  Main.run_server w arrivals
  = (map (fun sock => (trace_of (Main.serve w sock), None)) arrivals, w).
Proof.
  induction arrivals as [|sock rest IH]; [reflexivity|].
  cbn [Main.run_server map].
  pose proof (main_world w sock) as Hw.
  destruct (main_closed_once w sock) as [_ He].
  destruct (Main.serve w sock) as [[t w'] e]; cbn in Hw, He; subst w' e.
  now rewrite IH.
Qed.

End Isolation.

Lemma server_read_only : read_only GhuServer.server.
Proof.
  intros path h fs. pose proof (world_after_server fs path) as Hw.
  unfold world_after in Hw. intros Hr. unfold GhuServer.handler in *.
  now rewrite Hr in Hw.
Qed.

(** ** Decoding with replacement *)

Section Decoding.

Lemma continuation_not_ascii b : is_continuation b = true -> between 0 127 b = false.
Proof.
  unfold is_continuation, between. intros [H1 H2]%andb_prop.
  apply N.leb_le in H1. apply Bool.andb_false_iff; right. apply N.leb_gt. lia.
Qed.

Lemma second_not_ascii b0 b1 : second_ok b0 b1 = true -> between 0 127 b1 = false.
Proof.
  unfold second_ok. intros H.
  assert (Hlow : (128 <= Byte.to_N b1)%N).
  { repeat destruct (N.eqb _ _) in H;
      try apply continuation_not_ascii in H as H';
      unfold between in H; apply andb_prop in H as [H1 _]; apply N.leb_le in H1; lia. }
  unfold between. apply Bool.andb_false_iff; right. apply N.leb_gt. lia.
Qed.

Lemma ascii_bytes_cons b bs :
  ascii_bytes (b :: bs) = if between 0 127 b then b :: ascii_bytes bs else ascii_bytes bs.
Proof. reflexivity. Qed.

Lemma ascii_bytes_replacement bs : ascii_bytes (REPLACEMENT ++ bs)%list = ascii_bytes bs.
Proof. reflexivity. Qed.

Lemma ascii_bytes_decode_bounded n :
  forall bs, (length bs <= n)%nat -> ascii_bytes (decode_bytes bs) = ascii_bytes bs.
Proof.
  induction n as [|n IH]; intros [|b0 r0] Hlen; try reflexivity; [simpl in Hlen; lia|].
  cbn [length] in Hlen. cbn [decode_bytes].
  rewrite (ascii_bytes_cons b0 r0).
  destruct (between 0 127 b0) eqn:H0.
  { rewrite ascii_bytes_cons, H0. f_equal. apply IH. lia. }
  assert (Hr0 : ascii_bytes (REPLACEMENT ++ decode_bytes r0)%list = ascii_bytes r0)
    by (rewrite ascii_bytes_replacement; apply IH; lia).
  destruct (between 194 223 b0).
  { destruct r0 as [|b1 r1]; [reflexivity|].
    destruct (is_continuation b1) eqn:H1; [|exact Hr0].
    rewrite !ascii_bytes_cons, H0, (continuation_not_ascii _ H1).
    apply IH. cbn [length] in Hlen. lia. }
  destruct (between 224 239 b0).
  { destruct r0 as [|b1 r1]; [reflexivity|].
    destruct (second_ok b0 b1) eqn:H1; [|exact Hr0].
    pose proof (second_not_ascii _ _ H1) as N1.
    destruct r1 as [|b2 r2]; [now rewrite ascii_bytes_cons, N1|].
    cbn [length] in Hlen.
    destruct (is_continuation b2) eqn:H2.
    - rewrite !ascii_bytes_cons, H0, N1, (continuation_not_ascii _ H2).
      apply IH. lia.
    - rewrite ascii_bytes_replacement, (ascii_bytes_cons b1), N1. apply IH.
      cbn [length]. lia. }
  destruct (between 240 244 b0); [|exact Hr0].
  destruct r0 as [|b1 r1]; [reflexivity|].
  destruct (second_ok b0 b1) eqn:H1; [|exact Hr0].
  pose proof (second_not_ascii _ _ H1) as N1.
  destruct r1 as [|b2 r2]; [now rewrite ascii_bytes_cons, N1|].
  cbn [length] in Hlen.
  destruct (is_continuation b2) eqn:H2.
  - pose proof (continuation_not_ascii _ H2) as N2.
    destruct r2 as [|b3 r3]; [now rewrite !ascii_bytes_cons, N1, N2|].
    cbn [length] in Hlen.
    destruct (is_continuation b3) eqn:H3.
    + rewrite !ascii_bytes_cons, H0, N1, N2, (continuation_not_ascii _ H3).
      apply IH. lia.
    + rewrite ascii_bytes_replacement, (ascii_bytes_cons b1), N1, (ascii_bytes_cons b2), N2.
      apply IH. cbn [length]. lia.
  - rewrite ascii_bytes_replacement, (ascii_bytes_cons b1), N1. apply IH.
    cbn [length]. lia.
Qed.

(** Decoding with replacement neither adds nor removes an ASCII byte:
    the ASCII characters of the decoded request, the spaces and line
    ends among them, are those that were received, in the same order. *)
Theorem decode_keeps_ascii (data : bytes) :
  ascii_bytes (encode (decode data)) = ascii_bytes data.
Proof.
  unfold encode, decode. rewrite list_byte_of_string_of_list_byte.
  now apply (ascii_bytes_decode_bounded (length data)).
Qed.

End Decoding.

Section Redecoding.

Lemma decode_bytes_replacement bs :
  decode_bytes (REPLACEMENT ++ bs)%list = (REPLACEMENT ++ decode_bytes bs)%list.
Proof. reflexivity. Qed.

Lemma decode_bytes_twice_bounded n :
  forall bs, (length bs <= n)%nat -> decode_bytes (decode_bytes bs) = decode_bytes bs.
Proof.
  induction n as [|n IH]; intros [|b0 r0] Hlen; try reflexivity; [simpl in Hlen; lia|].
  cbn [length] in Hlen. cbn [decode_bytes].
  assert (Hr0 : decode_bytes (REPLACEMENT ++ decode_bytes r0)%list
                = (REPLACEMENT ++ decode_bytes r0)%list)
    by (rewrite decode_bytes_replacement; f_equal; apply IH; lia).
  destruct (between 0 127 b0) eqn:H0.
  { cbn [decode_bytes]. rewrite H0. f_equal. apply IH. lia. }
  destruct (between 194 223 b0) eqn:Ha.
  { destruct r0 as [|b1 r1]; [reflexivity|].
    destruct (is_continuation b1) eqn:H1; [|exact Hr0].
    cbn [decode_bytes]. rewrite H0, Ha, H1. do 2 f_equal.
    apply IH. cbn [length] in Hlen. lia. }
  destruct (between 224 239 b0) eqn:Hb.
  { destruct r0 as [|b1 r1]; [reflexivity|].
    destruct (second_ok b0 b1) eqn:H1; [|exact Hr0].
    destruct r1 as [|b2 r2]; [reflexivity|].
    cbn [length] in Hlen.
    destruct (is_continuation b2) eqn:H2.
    - cbn [decode_bytes]. rewrite H0, Ha, Hb, H1, H2. do 3 f_equal. apply IH. lia.
    - rewrite decode_bytes_replacement. f_equal. apply IH. cbn [length]. lia. }
  destruct (between 240 244 b0) eqn:Hc; [|exact Hr0].
  destruct r0 as [|b1 r1]; [reflexivity|].
  destruct (second_ok b0 b1) eqn:H1; [|exact Hr0].
  destruct r1 as [|b2 r2]; [reflexivity|].
  cbn [length] in Hlen.
  destruct (is_continuation b2) eqn:H2.
  - destruct r2 as [|b3 r3]; [reflexivity|].
    cbn [length] in Hlen.
    destruct (is_continuation b3) eqn:H3.
    + cbn [decode_bytes]. rewrite H0, Ha, Hb, Hc, H1, H2, H3. do 4 f_equal. apply IH. lia.
    + rewrite decode_bytes_replacement. f_equal. apply IH. cbn [length]. lia.
  - rewrite decode_bytes_replacement. f_equal. apply IH. cbn [length]. lia.
Qed.

(** The decoded text is well formed: encoding it and decoding it again
    with replacement gives the same text, with nothing replaced. *)
Theorem decode_encode_decode (data : bytes) :
  decode (encode (decode data)) = decode data.
Proof.
  unfold encode, decode. rewrite list_byte_of_string_of_list_byte.
  now rewrite (decode_bytes_twice_bounded (length data)).
Qed.

End Redecoding.

(** ** What is looked up and called *)

Section Lookups.

Context {World : Type}.

Import GhuServer.

Implicit Types (self : GhuServer World) (w : World) (sock : socket).

(** No token of [split(" ")] has a space in it. *)
Lemma split_space_tokens s : Forall (fun t => count_char " " t = O) (split " " s).
Proof.
  unfold split; induction s as [|c s IH]; [now repeat constructor|].
  cbn -[Ascii.eqb]; rewrite Bool.andb_true_r.
  destruct (Ascii.eqb " " c) eqn:Hc; [now constructor|].
  destruct (split_from_cons " " 0 s) as (x & xs & Hx). rewrite Hx in IH |- *.
  inversion IH as [|? ? Hx0 Hxs]; subst. cbn -[Ascii.eqb].
  constructor; [|assumption]. cbn -[Ascii.eqb]. now rewrite Hc.
Qed.

Lemma item_no_space l i :
  Forall (fun t => count_char " " t = O) l -> count_char " " (item l i) = O.
Proof.
  unfold item. revert i; induction l as [|x l IH]; intros [|i] H; try reflexivity.
  - now inversion H.
  - cbn [nth]. apply IH. now inversion H.
Qed.

Lemma answer_lookups self data w :
  let evs := (answer self data w).1.2 in
  (lookups evs = [] /\ calls evs = O)
  \/ (lookups evs = [item (parts data) 1] /\ (calls evs <= 1)%nat
      /\ (calls evs = 1%nat -> is_Some (routes self !! item (parts data) 1))).
Proof.
  unfold answer, handler. destruct (length _ <? 2)%nat; [now left|]. cbv zeta. right.
  match goal with
  | |- context [@lookup ?K ?V ?M ?L ?k ?m] =>
    destruct (@lookup K V M L k m) as [h|] eqn:Hr
  end.
  - destruct (h w) as [[[body|]|e] w']; cbn; repeat split; eauto.
  - cbn. repeat split; [lia|discriminate].
Qed.

(** On every connection at most one key is looked up in the route table
    and at most one handler is called, and only for a key that is
    registered; a key that is looked up never has a space in it, so a
    route registered under a path with a space can never be reached. *)
Theorem one_lookup_without_space self w sock :
  let t := trace_of (serve self w sock) in
  (length (lookups t) <= 1)%nat
  /\ (calls t <= length (lookups t))%nat
  /\ Forall (fun path => count_char " " path = O) (lookups t)
  /\ (calls t = 1%nat -> exists path, lookups t = [path] /\ is_Some (routes self !! path)).
Proof.
  intros t; subst t.
  destruct (recv_result sock) as [[|b d]|e] eqn:Hrecv.
  - rewrite (serve_empty _ _ _ Hrecv). cbn. repeat split; (lia || constructor || discriminate).
  - destruct (serve_data_observed self w sock b d Hrecv) as (_ & _ & Hl & Hc & _).
    rewrite Hl, Hc.
    destruct (answer_lookups self (b :: d) w) as [[-> ->]|(-> & Hle & Hsome)].
    + cbn. repeat split; (lia || constructor || discriminate).
    + cbn [length]. repeat split; [lia|exact Hle| |eauto].
      repeat constructor. apply item_no_space, split_space_tokens.
  - rewrite (serve_raise _ _ _ _ Hrecv).
    destruct (on_exception_log (if is_TimeoutError e then unbound_local "request_data" else e))
      as (l & m & x & ->).
    cbn. repeat split; (lia || constructor || discriminate).
Qed.

End Lookups.

(** ** The further properties on concrete connections *)

Section MoreExamples.

Import GhuServer.

Lemma route_other_paths_witness :
  serve (route server "/quiet" silent) with_index (request (request_for "GET" "/hello"))
  = serve server with_index (request (request_for "GET" "/hello")).
Proof.
  apply (route_other_paths server "/quiet" silent with_index
           (request (request_for "GET" "/hello"))).
  intros data [= <-]. vm_compute. discriminate.
Defined.

Lemma request_bytes_to_response_witness :
  let run := serve server with_index (request (request_for "POST" "/hello")) in
  sent (trace_of run) = [encode (response_for server "/hello" with_index)]
  /\ lookups (trace_of run) = ["/hello"]
  /\ world_of run = world_after server "/hello" with_index.
Proof.
  apply (request_bytes_to_response server with_index
           (request (request_for "POST" "/hello")) "POST" "/hello");
    reflexivity.
Defined.

Lemma deployment_answers_witness :
  sent (trace_of (serve server with_index (request (request_for "GET" "/"))))
  = [encode (deployed with_index "/")]
  /\ world_of (serve server with_index (request (request_for "GET" "/"))) = with_index.
Proof.
  apply (deployment_answers with_index (request (request_for "GET" "/")) "GET" "/");
    reflexivity.
Defined.

Lemma build_response_read_back_witness :
  status_line (_build_response 201 ("a" +:+ CRLF +:+ CRLF +:+ "b") "text/plain")
  = "HTTP/1.1 " +:+ str_of_int 201 +:+ " " +:+ reason 201
  /\ header_lines (_build_response 201 ("a" +:+ CRLF +:+ CRLF +:+ "b") "text/plain")
     = ["Content-Type: " +:+ "text/plain"; "Connection: close"]
  /\ body_of (_build_response 201 ("a" +:+ CRLF +:+ CRLF +:+ "b") "text/plain")
     = "a" +:+ CRLF +:+ CRLF +:+ "b".
Proof.
  apply (build_response_read_back 201 ("a" +:+ CRLF +:+ CRLF +:+ "b") "text/plain").
  reflexivity.
Defined.

Lemma response_well_formed_witness :
  exists response,
    sent (trace_of (serve server with_index (request "x"))) = [encode response]
    /\ In (status_line response) status_lines
    /\ header_lines response
       = ["Content-Type: text/html; charset=utf-8"; "Connection: close"].
Proof.
  apply (response_well_formed server with_index (request "x") "x"%byte []).
  reflexivity.
Defined.

Lemma empty_read_is_dropped_witness :
  serve server with_index (Socket (RecvData []) None)
  = ([EvLog WARNING "Recebida uma requisição vazia." false; EvClose], with_index, None)
  /\ Main.serve with_index (Socket (RecvData []) None)
     = ([EvLog WARNING "Empty request received." false; EvClose], with_index, None).
Proof.
  apply (empty_read_is_dropped server with_index (Socket (RecvData []) None)).
  reflexivity.
Defined.

Lemma read_failure_is_logged_witness :
  logged (trace_of (serve server with_index
                          (Socket (RecvRaise (Exn ConnectionResetError "reset")) None)))
  = [(WARNING, "Conexão resetada pelo cliente.")].
Proof.
  apply (read_failure_is_logged server with_index
           (Socket (RecvRaise (Exn ConnectionResetError "reset")) None)
           (Exn ConnectionResetError "reset"));
    reflexivity.
Defined.

Lemma write_failure_is_logged_witness :
  exception_of (serve server with_index
                      (Socket (RecvData (encode "GET /hello"))
                              (Some (Exn ConnectionResetError "reset"))))
  = None.
Proof.
  apply (write_failure_is_logged server with_index
           (Socket (RecvData (encode "GET /hello")) (Some (Exn ConnectionResetError "reset")))
           "G"%byte (encode "ET /hello") (Exn ConnectionResetError "reset"));
    reflexivity.
Defined.

Lemma handler_failure_run_witness :
  logged (trace_of (serve server no_files (request "GET /")))
  = [(INFO, "Request:" +:+ NL +:+ "GET /");
     (ERROR, "Erro na rota '/': Template não encontrado: 'index.html'")].
Proof.
  rewrite (handler_failure_run server no_files (request "GET /")
             "G"%byte (encode "ET /") index
             (Exn FileNotFoundError "Template não encontrado: 'index.html'") no_files);
    [reflexivity | reflexivity | reflexivity | vm_compute; lia | reflexivity | reflexivity].
Defined.

Lemma connections_are_independent_witness :
  run_server server with_index
    [request (request_for "GET" "/"); idle; request (request_for "GET" "/hello")]
  = (map (fun sock => (trace_of (serve server with_index sock), None))
         [request (request_for "GET" "/"); idle; request (request_for "GET" "/hello")],
     with_index).
Proof.
  apply (connections_are_independent server with_index
           [request (request_for "GET" "/"); idle; request (request_for "GET" "/hello")]).
  exact server_read_only.
Defined.

End MoreExamples.
